(** * InlineKeyboardMarkup: a grid of inline keyboard buttons

    Shallow embedding of [telegram/inline/inlinekeyboardmarkup.py].

    The attribute [inline_keyboard] is a Python list of lists of buttons.  It
    is modelled by value as [list (list Button)]: the grid owns its rows and
    every row owns its buttons, so no two positions of a grid alias the same
    row object.  Python integers are unbounded and are modelled by [Z].
    Methods that mutate [self] are computations in a small state-and-exception
    monad over the rows; class methods that build a new object return a
    [result]. *)

From stdpp Require Import base numbers option list strings.
From stdpp Require countable.
From Stdlib Require Import ZArith Lia.

Local Open Scope Z_scope.

(** ** Exceptions and results *)

Inductive exn : Type :=
  | IndexError
  | AttributeError
  | KeyError (key : string)
  | TypeError.

Inductive result (A : Type) : Type :=
  | Ok (a : A)
  | Raise (e : exn).
Arguments Ok {A} a.
Arguments Raise {A} e.

Definition is_raise {A} (r : result A) : bool :=
  match r with Ok _ => false | Raise _ => true end.

Definition rbind {A B} (r : result A) (k : A -> result B) : result B :=
  match r with
  | Ok a => k a
  | Raise e => Raise e
  end.

(** ** JSON values and dictionaries

    A [JSONDict] is a Python [dict] with string keys.  Python dictionaries
    keep their keys in insertion order, which is what iterating over one
    yields, so a dictionary is an association list (one entry per key). *)

#[warnings="-register-all"] Inductive JSON : Type :=
  | JNull
  | JBool (b : bool)
  | JNum (n : Z)
  | JStr (s : string)
  | JArr (items : list JSON)
  | JObj (members : list (string * JSON)).

Abbreviation JSONDict := (list (string * JSON)).

Module PyDict.

(** [d.get(k)]; the subscript [d[k]] raises KeyError where this is [None]. *)
Fixpoint get (k : string) (d : JSONDict) : option JSON :=
  match d with
  | [] => None
  | (k', v) :: d' => if decide (k = k') then Some v else get k d'
  end.

(** [d[k]] *)
Definition getitem (d : JSONDict) (k : string) : result JSON :=
  match get k d with
  | Some v => Ok v
  | None => Raise (KeyError k)
  end.

(** [d[k] = v] *)
Fixpoint set (k : string) (v : JSON) (d : JSONDict) : JSONDict :=
  match d with
  | [] => [(k, v)]
  | (k', v') :: d' =>
      if decide (k = k') then (k, v) :: d' else (k', v') :: set k v d'
  end.

End PyDict.

(** [for x in v]: lists yield their items, strings their characters,
    dictionaries their keys; the other JSON values are not iterable. *)
Definition iterate (v : JSON) : result (list JSON) :=
  match v with
  | JArr items => Ok items
  | JStr s => Ok (map (fun c => JStr (String c EmptyString)) (String.list_ascii_of_string s))
  | JObj members => Ok (map (fun kv => JStr kv.1) members)
  | JNull | JBool _ | JNum _ => Raise TypeError
  end.

(** Truth value of an optional dictionary: [None] and [{}] are false. *)
Definition truthy (data : option JSONDict) : bool :=
  match data with
  | None | Some [] => false
  | Some (_ :: _) => true
  end.

(** ** Python list primitives *)

Module PyList.
Section PyList.
Context {A : Type}.

Definition len (l : list A) : Z := Z.of_nat (length l).

(** Position named by the subscript [l[i]]: negative subscripts count from
    the end, anything outside [-len, len) is an IndexError. *)
Definition subscript (l : list A) (i : Z) : result nat :=
  if (0 <=? i) && (i <? len l) then Ok (Z.to_nat i)
  else if (- len l <=? i) && (i <? 0) then Ok (Z.to_nat (len l + i))
  else Raise IndexError.

(** [l[i]] *)
Definition getitem (l : list A) (i : Z) : result A :=
  rbind (subscript l i)
        (fun p => match l !! p with
                  | Some x => Ok x
                  | None => Raise IndexError
                  end).

(** Where [l.insert(i, x)] puts [x]: a negative [i] counts from the end,
    and the outcome is cut to [0, len]. *)
Definition insert_pos (l : list A) (i : Z) : nat :=
  let w := if i <? 0 then i + len l else i in
  let w := if w <? 0 then 0 else w in
  let w := if len l <? w then len l else w in
  Z.to_nat w.

(** [l.insert(i, x)] *)
Definition insert (i : Z) (x : A) (l : list A) : list A :=
  let w := insert_pos l i in
  take w l ++ x :: drop w l.

(** [l.append(x)] *)
Definition append (x : A) (l : list A) : list A := l ++ [x].

End PyList.
End PyList.

(** ** The class *)

Module InlineKeyboardMarkup.
Section Markup.

(** [telegram.InlineKeyboardButton] is imported by the module; the grid
    only stores, compares, hashes and (de)serialises its values.  The
    methods of the button class that the grid calls are parameters:
    [x.to_dict()], [InlineKeyboardButton.de_json(col, bot)], which gives a
    button or [None], [x == y], of which [x != y] is the negation, and
    [hash(x)].  A button object is always true in a condition. *)
Context {Button : Type}.
Context {Bot : Type}.
Variable button_to_dict : Button -> JSONDict.
Variable button_de_json : JSON -> Bot -> option Button.
Variable button_eq : Button -> Button -> bool.
Variable button_hash : Button -> Z.

(** [hash] of a tuple, a function of the hashes of its items in order. *)
Variable tuple_hash : list Z -> Z.

(** [super().to_dict()]: the dictionary of the [ReplyMarkup] base class,
    which [to_dict] extends. *)
Variable base_to_dict : list (list Button) -> JSONDict.

(** Objects of other classes, as [__eq__] may meet them. *)
Context {Foreign : Type}.

(** The attribute [inline_keyboard]. *)
Local Abbreviation grid := (list (list Button)).

(** Computations of a method on [self]: they read and update
    [self.inline_keyboard] and either return or raise. *)
Definition M (A : Type) : Type := grid -> result A * grid.

Definition ret {A} (a : A) : M A := fun s => (Ok a, s).
Definition raise {A} (e : exn) : M A := fun s => (Raise e, s).
Definition bind {A B} (m : M A) (k : A -> M B) : M B :=
  fun s => match m s with
           | (Ok a, s') => k a s'
           | (Raise e, s') => (Raise e, s')
           end.
Definition lift {A} (f : grid -> result A) : M A := fun s => (f s, s).
Definition modify (f : grid -> grid) : M unit := fun s => (Ok tt, f s).

Local Notation "x <- m ;; k" := (bind m (fun x => k))
  (at level 60, m at next level, right associativity).

(** [InlineKeyboardMarkup(inline_keyboard=None)] *)
Definition __init__ (inline_keyboard : option grid) : grid :=
  match inline_keyboard with
  | None => [[]]
  | Some k => k
  end.

Definition from_button (button : Button) : grid :=
  __init__ (Some [[button]]).

Definition from_row (button_row : list Button) : grid :=
  __init__ (Some [button_row]).

Definition from_column (button_column : list Button) : grid :=
  let button_grid := map (fun button => [button]) button_column in
  __init__ (Some button_grid).

(** *** to_dict *)

(** The loop of [to_dict]: one appended list per row. *)
Definition rows_to_json (rows : grid) : list JSON :=
  foldl (fun acc inline_keyboard =>
           PyList.append
             (JArr (map (fun x => JObj (button_to_dict x)) inline_keyboard)) acc)
        [] rows.

Definition to_dict (self : grid) : JSONDict :=
  let data := base_to_dict self in
  PyDict.set "inline_keyboard" (JArr (rows_to_json self)) data.

(** *** de_json *)

(** Modelled from the spec: the helper [parse_data] of the base class is
    not part of this module.  The deserializing constructor is specified on
    the mapping it is given, so the helper hands that mapping on. *)
Definition parse_data (data : option JSONDict) : option JSONDict := data.

(** The inner loop: the buttons of one row, those that deserialize. *)
Fixpoint de_json_row (bot : Bot) (cols : list JSON) (tmp : list Button)
  : list Button :=
  match cols with
  | [] => tmp
  | col :: cols' =>
      match button_de_json col bot with
      | Some btn => de_json_row bot cols' (PyList.append btn tmp)
      | None => de_json_row bot cols' tmp
      end
  end.

(** The outer loop over the rows. *)
Fixpoint de_json_rows (bot : Bot) (rows : list JSON) (keyboard : grid)
  : result grid :=
  match rows with
  | [] => Ok keyboard
  | row :: rows' =>
      rbind (iterate row) (fun cols =>
      let tmp := de_json_row bot cols [] in
      de_json_rows bot rows' (PyList.append tmp keyboard))
  end.

Definition de_json (data : option JSONDict) (bot : Bot)
  : result (option grid) :=
  let data := parse_data data in
  if negb (truthy data) then Ok None
  else
    match data with
    | None => Raise TypeError
    | Some data =>
        rbind (PyDict.getitem data "inline_keyboard") (fun value =>
        rbind (iterate value) (fun rows =>
        rbind (de_json_rows bot rows []) (fun keyboard =>
        Ok (Some (__init__ (Some keyboard))))))
    end.

(** *** add_button *)

Definition interval_value (lower upper value : Z) : Z :=
  Z.min (Z.max lower value) upper.

(** [self.inline_keyboard[i]], as the position of the row object. *)
Definition row_at (i : Z) : M nat := lift (fun s => PyList.subscript s i).

(** [len(self.inline_keyboard[i])] *)
Definition row_len (i : Z) : M Z :=
  lift (fun s => rbind (PyList.getitem s i) (fun r => Ok (PyList.len r))).

(** [row.insert(c, button)] on the row object at position [p]. *)
Definition row_insert (p : nat) (c : Z) (button : Button) : M unit :=
  modify (alter (PyList.insert c button) p).

(** [row.append(button)] on the row object at position [p]. *)
Definition row_append (p : nat) (button : Button) : M unit :=
  modify (alter (PyList.append button) p).

Definition add_button (button : Button)
    (from_row insert_row insert_column : option Z) : M unit :=
  max_row <- lift (fun s => Ok (PyList.len s - 1)) ;;
  match from_row, insert_row with
  | Some from_row, None =>
      if max_row <? from_row then raise IndexError
      else match insert_column with
           | Some insert_column =>
               target <- row_at (interval_value 0 max_row from_row) ;;
               upper <- row_len from_row ;;
               row_insert target (interval_value 0 upper insert_column) button
           | None =>
               target <- row_at (interval_value 0 max_row from_row) ;;
               row_append target button
           end
  | None, Some insert_row =>
      modify (PyList.insert (interval_value 0 (max_row + 1) insert_row) [button])
  | None, None =>
      match insert_column with
      | Some insert_column =>
          target <- row_at (-1) ;;
          upper <- row_len (-1) ;;
          row_insert target (interval_value 0 upper insert_column) button
      | None =>
          target <- row_at (-1) ;;
          row_append target button
      end
  | Some _, Some _ => raise AttributeError
  end.

(** *** __eq__ and __hash__ *)

(** What [__eq__] may be handed: another grid or an object of some other
    class. *)
Inductive pyobject : Type :=
  | Markup (inline_keyboard : grid)
  | Other (o : Foreign).

(** Modelled from the spec: [__eq__] of the base class is not part of this
    module; for a comparand that is not a grid the comparison falls back to
    not equal and does not raise. *)
Definition base_eq (self : grid) (other : pyobject) : result bool :=
  Ok false.

(** The loop over the buttons of row [idx]: [None] when it runs to its end,
    [Some false] when it returns from [__eq__]. *)
Fixpoint eq_buttons (other : grid) (idx jdx : nat) (row : list Button)
  : result (option bool) :=
  match row with
  | [] => Ok None
  | button :: row' =>
      match other !! idx with
      | None => Raise IndexError
      | Some other_row =>
          match other_row !! jdx with
          | None => Raise IndexError
          | Some other_button =>
              if negb (button_eq button other_button) then Ok (Some false)
              else eq_buttons other idx (S jdx) row'
          end
      end
  end.

(** The loop over the rows. *)
Fixpoint eq_rows (other : grid) (idx : nat) (rows : grid)
  : result (option bool) :=
  match rows with
  | [] => Ok None
  | row :: rows' =>
      match other !! idx with
      | None => Raise IndexError
      | Some other_row =>
          if negb (length row =? length other_row)%nat then Ok (Some false)
          else rbind (eq_buttons other idx 0 row) (fun returned =>
               match returned with
               | Some b => Ok (Some b)
               | None => eq_rows other (S idx) rows'
               end)
      end
  end.

Definition __eq__ (self : grid) (other : pyobject) : result bool :=
  match other with
  | Markup other_keyboard =>
      if negb (length self =? length other_keyboard)%nat then Ok false
      else rbind (eq_rows other_keyboard 0 self) (fun returned =>
           match returned with
           | Some b => Ok b
           | None => Ok true
           end)
  | Other _ => base_eq self other
  end.

Definition __hash__ (self : grid) : Z :=
  tuple_hash (map (fun row => tuple_hash (map (fun button => button_hash button) row))
                  self).

(** *** add_from_markup *)

(** Modelled from the spec: [add_from_markup] is called by the tests but is
    not defined in this module.  Merging another grid's rows in puts them,
    one after the other, at the insertion index and the positions that
    follow it, so that the rows already there move down; without an index
    the rows go after the last one, as the tests have it. *)
Fixpoint insert_rows (index : nat) (other : grid) (rows : grid)
  : grid :=
  match other with
  | [] => rows
  | row :: other' =>
      insert_rows (S index) other' (PyList.insert (Z.of_nat index) row rows)
  end.

(** Modelled from the spec: [add_from_markup(markup, index=None)], on the
    rows of [self]. *)
Definition add_from_markup (markup : grid) (index : option nat) : M unit :=
  fun s => modify (insert_rows (default (length s) index) markup) s.

(** *** Words of the specification *)

(** The two refusals of [add_button]: a [from_row] beyond the last row, and
    [from_row] together with [insert_row]. *)
Definition range_violation (rows : grid) (from_row insert_row : option Z)
  : bool :=
  match from_row, insert_row with
  | Some r, None => PyList.len rows - 1 <? r
  | _, _ => false
  end.

Definition both_given (from_row insert_row : option Z) : bool :=
  match from_row, insert_row with
  | Some _, Some _ => true
  | _, _ => false
  end.

(** The call fails exactly in those two cases. *)
Definition fails_only_as_specified (button : Button)
    (from_row insert_row insert_column : option Z) (rows : grid) : Prop :=
  is_raise (add_button button from_row insert_row insert_column rows).1 = true
  <-> range_violation rows from_row insert_row || both_given from_row insert_row
      = true.

(** Clamp: the value itself inside [lower, upper], the nearest bound
    outside. *)
Definition clamp (lower upper value : Z) : Z :=
  if value <? lower then lower
  else if upper <? value then upper
  else value.

(** [add_button(button, from_row=r, insert_column=c)] in the words of the
    specification: the target row is [r] clamped into [0, len(rows) - 1],
    [c] is clamped into [0, len(target row)], and the button goes to that
    position of that row. *)
Definition insert_in_row_as_specified (button : Button) (r c : Z) (rows : grid)
  : grid :=
  let target := Z.to_nat (clamp 0 (PyList.len rows - 1) r) in
  match rows !! target with
  | Some row =>
      let k := Z.to_nat (clamp 0 (PyList.len row) c) in
      <[target := take k row ++ button :: drop k row]> rows
  | None => rows
  end.

(** The grid after a call of [add_button] that is not refused, in the words
    of the specification: every index is clamped to the nearest valid bound.
    With [insert_row], the new row [[button]] stands at [insert_row] clamped
    into [0, len(rows)].  Otherwise the target row is [from_row] clamped into
    [0, len(rows) - 1], or the last row without [from_row], and the button
    stands in it at [insert_column] clamped into [0, len(target row)], or at
    its end without [insert_column]. *)
Definition add_button_as_specified (button : Button)
    (from_row insert_row insert_column : option Z) (rows : grid) : grid :=
  match from_row, insert_row with
  | Some _, Some _ => rows
  | None, Some i =>
      let k := Z.to_nat (clamp 0 (PyList.len rows) i) in
      take k rows ++ [button] :: drop k rows
  | _, None =>
      let target :=
        match from_row with
        | Some r => Z.to_nat (clamp 0 (PyList.len rows - 1) r)
        | None => (length rows - 1)%nat
        end in
      match rows !! target with
      | Some row =>
          let k :=
            match insert_column with
            | Some c => Z.to_nat (clamp 0 (PyList.len row) c)
            | None => length row
            end in
          <[target := take k row ++ button :: drop k row]> rows
      | None => rows
      end
  end.

(** Equality of two grids in the words of the specification: the same
    number of rows, row by row the same number of buttons, and position by
    position buttons that are equal by the buttons' own equality. *)
Definition same_grid (a b : grid) : Prop :=
  length a = length b
  /\ forall (i : nat) ra rb, a !! i = Some ra -> b !! i = Some rb ->
       length ra = length rb
       /\ forall (j : nat) x y, ra !! j = Some x -> rb !! j = Some y ->
            button_eq x y = true.

(** Number of buttons of a grid. *)
Definition buttons (rows : grid) : nat := length (concat rows).

(** Calls made one after the other on the returned [self], as in
    [markup.add_button(a).add_button(b)]: a call that raises ends the chain. *)
Definition chained (calls : list (M unit)) : M unit :=
  foldr (fun call rest => bind call (fun _ => rest)) (ret tt) calls.

End Markup.

Arguments pyobject : clear implicits.
Arguments Markup {Button Foreign}.
Arguments Other {Button Foreign}.

(** The attribute [inline_keyboard], outside the class. *)
Abbreviation grid Button := (list (list Button)) (only parsing).

(** ** Buttons for the examples

    The buttons of the tests, [InlineKeyboardButton(text=..., callback_data=...)],
    with a serialized form of two keys, equality on both fields, and hashes
    that are folded from character codes. *)

Module Fixture.

Record InlineKeyboardButton : Type :=
  { text : string; callback_data : string }.

#[global] Instance button_eq_dec : EqDecision InlineKeyboardButton.
Proof. solve_decision. Defined.

Definition button_to_dict (x : InlineKeyboardButton) : JSONDict :=
  [("text", JStr (text x)); ("callback_data", JStr (callback_data x))].

Definition button_de_json (col : JSON) (bot : unit)
  : option InlineKeyboardButton :=
  match col with
  | JObj members =>
      match PyDict.get "text" members, PyDict.get "callback_data" members with
      | Some (JStr t), Some (JStr d) => Some {| text := t; callback_data := d |}
      | _, _ => None
      end
  | _ => None
  end.

Definition button_eq (x y : InlineKeyboardButton) : bool := bool_decide (x = y).

Definition tuple_hash (hs : list Z) : Z :=
  foldl (fun acc h => (acc * 31 + h) mod 2 ^ 61) 7 hs.

Definition string_hash (s : string) : Z :=
  tuple_hash (map (fun c => Z.of_nat (Ascii.nat_of_ascii c))
                  (String.list_ascii_of_string s)).

Definition button_hash (x : InlineKeyboardButton) : Z :=
  tuple_hash [string_hash (text x); string_hash (callback_data x)].

(** An equality and a hash that look at the text of a button only, and a
    tuple hash that tells any two tuples apart. *)
Definition button_eq_text (x y : InlineKeyboardButton) : bool :=
  bool_decide (text x = text y).

Definition button_hash_text (x : InlineKeyboardButton) : Z := string_hash (text x).

Definition tuple_code (hs : list Z) : Z := Z.pos (countable.encode hs).

Definition base_to_dict (rows : list (list InlineKeyboardButton)) : JSONDict := [].

Definition button (n : string) : InlineKeyboardButton :=
  {| text := "button" +:+ n; callback_data := "data" +:+ n |}.

(** A grid with a row of three buttons and a row of one. *)
Definition rows_3_1 : list (list InlineKeyboardButton) :=
  [ [button "1"; button "2"; button "3"]; [button "4"] ].

(** Calls chained on the returned [self]. *)
Definition chain (calls : list (M (Button:=InlineKeyboardButton) unit))
  : M (Button:=InlineKeyboardButton) unit :=
  foldr (fun call rest => bind call (fun _ => rest)) (ret tt) calls.

End Fixture.

(** ** Facts about the list primitives *)

Section PyListFacts.
Context {A : Type}.
Implicit Types (l : list A) (x : A) (i : Z).

Lemma insert_pos_clamped l i :
  0 <= i <= PyList.len l -> PyList.insert_pos l i = Z.to_nat i.
Proof.
  unfold PyList.insert_pos, PyList.len. intros [H0 H1]. cbv zeta.
  destruct (Z.ltb_spec i 0); [lia|].
  destruct (Z.ltb_spec i 0); [lia|].
  destruct (Z.ltb_spec (Z.of_nat (length l)) i); [lia|]. done.
Qed.

Lemma insert_clamped l i x :
  0 <= i <= PyList.len l ->
  PyList.insert i x l = take (Z.to_nat i) l ++ x :: drop (Z.to_nat i) l.
Proof. intros H. unfold PyList.insert. by rewrite insert_pos_clamped. Qed.

Lemma subscript_in_range l i :
  0 <= i < PyList.len l -> PyList.subscript l i = Ok (Z.to_nat i).
Proof.
  unfold PyList.subscript. intros [H0 H1].
  destruct (Z.leb_spec 0 i); [|lia].
  destruct (Z.ltb_spec i (PyList.len l)); [done|lia].
Qed.

Lemma subscript_last l :
  l <> [] -> PyList.subscript l (-1) = Ok (length l - 1)%nat.
Proof.
  unfold PyList.subscript, PyList.len. intros Hl.
  destruct l as [|a l]; [done|]. cbn [length].
  destruct (Z.leb_spec 0 (-1)); [lia|]. cbn [andb].
  destruct (Z.leb_spec (- Z.of_nat (S (length l))) (-1)); [|lia].
  cbn. f_equal. lia.
Qed.

Lemma subscript_nil i : PyList.subscript (@nil A) i = Raise IndexError.
Proof.
  unfold PyList.subscript, PyList.len. change (Z.of_nat (length (@nil A))) with 0.
  destruct (Z.leb_spec 0 i), (Z.ltb_spec i 0), (Z.leb_spec (- 0) i);
    cbn [andb]; try done; lia.
Qed.

Lemma subscript_bound l i p :
  PyList.subscript l i = Ok p -> (p < length l)%nat.
Proof.
  unfold PyList.subscript, PyList.len.
  destruct (Z.leb_spec 0 i), (Z.ltb_spec i (Z.of_nat (length l))); cbn;
    try (intros [= <-]; lia);
    destruct (Z.leb_spec (- Z.of_nat (length l)) i), (Z.ltb_spec i 0); cbn;
    try done; intros [= <-]; lia.
Qed.

Lemma getitem_in_range l i x :
  0 <= i -> l !! Z.to_nat i = Some x -> PyList.getitem l i = Ok x.
Proof.
  intros H0 Hx. unfold PyList.getitem.
  rewrite subscript_in_range; [cbn; by rewrite Hx|].
  apply lookup_lt_Some in Hx. unfold PyList.len. lia.
Qed.

(** Shape of a list after an insertion at position [k]. *)
Lemma lookup_inserted_lt l x (k j : nat) :
  (j < k)%nat -> (k <= length l)%nat ->
  (take k l ++ x :: drop k l) !! j = l !! j.
Proof.
  intros Hj Hk. rewrite lookup_app_l by (rewrite length_take; lia).
  by rewrite lookup_take_lt.
Qed.

Lemma lookup_inserted_eq l x (k : nat) :
  (k <= length l)%nat -> (take k l ++ x :: drop k l) !! k = Some x.
Proof.
  intros Hk. rewrite lookup_app_r by (rewrite length_take; lia).
  rewrite length_take. by replace (k - k `min` length l)%nat with 0%nat by lia.
Qed.

Lemma lookup_inserted_gt l x (k j : nat) :
  (k <= j)%nat -> (k <= length l)%nat ->
  (take k l ++ x :: drop k l) !! S j = l !! j.
Proof.
  intros Hj Hk. rewrite lookup_app_r by (rewrite length_take; lia).
  rewrite length_take.
  replace (S j - k `min` length l)%nat with (S (j - k)) by lia.
  change ((x :: drop k l) !! S (j - k)%nat) with (drop k l !! (j - k)%nat).
  rewrite lookup_drop. f_equal. lia.
Qed.

Lemma length_inserted l x (k : nat) :
  length (take k l ++ x :: drop k l) = S (length l).
Proof.
  rewrite length_app. cbn. rewrite length_take, length_drop. lia.
Qed.

End PyListFacts.

(** ** add_button, mode by mode *)

#[local] Arguments PyList.insert : simpl never.
#[local] Arguments PyList.append : simpl never.
#[local] Arguments PyList.len : simpl never.
#[local] Arguments PyList.subscript : simpl never.
#[local] Arguments PyList.getitem : simpl never.
#[local] Arguments interval_value : simpl never.

(** Runs a call of [add_button] down to the list primitives. *)
Ltac run_add_button :=
  unfold add_button, bind, lift, row_at, row_len, row_insert, row_append,
    modify, raise; cbn.

Section AddButton.
Context {Button : Type}.
Implicit Types (rows : grid Button) (button : Button).

Lemma interval_value_inside lower upper value :
  lower <= value <= upper -> interval_value lower upper value = value.
Proof. unfold interval_value. lia. Qed.

Lemma interval_value_below lower upper value :
  lower <= upper -> value <= lower -> interval_value lower upper value = lower.
Proof. unfold interval_value. lia. Qed.

Lemma interval_value_above lower upper value :
  lower <= upper -> upper <= value -> interval_value lower upper value = upper.
Proof. unfold interval_value. lia. Qed.

Lemma interval_value_range lower upper value :
  lower <= upper -> lower <= interval_value lower upper value <= upper.
Proof. unfold interval_value. lia. Qed.

Lemma len_nonneg {A} (l : list A) : 0 <= PyList.len l.
Proof. unfold PyList.len. lia. Qed.

(** Both arguments given: the call is refused before anything is read. *)
Lemma add_button_both button r i ic rows :
  add_button button (Some r) (Some i) ic rows = (Raise AttributeError, rows).
Proof. done. Qed.

(** [from_row] beyond the last row. *)
Lemma add_button_from_row_too_large button r ic rows :
  PyList.len rows - 1 < r ->
  add_button button (Some r) None ic rows = (Raise IndexError, rows).
Proof.
  intros H. run_add_button.
  destruct (Z.ltb_spec (PyList.len rows - 1) r); [done|lia].
Qed.

(** [insert_row] alone: a new row at the clamped position. *)
Lemma add_button_insert_row button i ic rows :
  let k := Z.to_nat (interval_value 0 (PyList.len rows) i) in
  add_button button None (Some i) ic rows
  = (Ok tt, take k rows ++ [button] :: drop k rows).
Proof.
  intros k. run_add_button.
  replace (PyList.len rows - 1 + 1) with (PyList.len rows) by lia.
  rewrite insert_clamped; [done|].
  apply interval_value_range, len_nonneg.
Qed.

Lemma alter_lookup_insert {A} (f : A -> A) (l : list A) p x :
  l !! p = Some x -> alter f p l = <[p := f x]> l.
Proof.
  intros Hx. pose proof (lookup_lt_Some _ _ _ Hx).
  apply list_eq. intros j. destruct (decide (j = p)) as [->|Hne].
  - rewrite list_lookup_alter_eq, Hx, list_lookup_insert_eq by done. done.
  - rewrite list_lookup_alter_ne, list_lookup_insert_ne by done. done.
Qed.

(** [from_row] alone, non-negative: append to that row. *)
Lemma add_button_from_row_append button r rows row :
  0 <= r -> rows !! Z.to_nat r = Some row ->
  add_button button (Some r) None None rows
  = (Ok tt, <[Z.to_nat r := row ++ [button]]> rows).
Proof.
  intros H0 Hrow. pose proof (lookup_lt_Some _ _ _ Hrow) as Hlt.
  assert (r <= PyList.len rows - 1) by (unfold PyList.len; lia).
  run_add_button.
  destruct (Z.ltb_spec (PyList.len rows - 1) r); [lia|].
  rewrite interval_value_inside by lia.
  rewrite subscript_in_range by lia.
  by rewrite (alter_lookup_insert _ _ _ row).
Qed.

(** [from_row] alone, negative, on a grid with a row: append to row 0. *)
Lemma add_button_from_row_negative_append button r rows row :
  r < 0 -> rows !! 0%nat = Some row ->
  add_button button (Some r) None None rows
  = (Ok tt, <[0%nat := row ++ [button]]> rows).
Proof.
  intros H Hrow. pose proof (lookup_lt_Some _ _ _ Hrow) as Hlt.
  assert (0 < PyList.len rows) by (unfold PyList.len; lia).
  run_add_button.
  destruct (Z.ltb_spec (PyList.len rows - 1) r); [lia|].
  rewrite interval_value_below by lia.
  rewrite subscript_in_range by lia.
  by rewrite (alter_lookup_insert _ _ _ row).
Qed.

(** [from_row] and [insert_column], [from_row] non-negative: insert into
    that row at the column clamped to the row's length. *)
Lemma add_button_from_row_insert button r c rows row :
  0 <= r -> rows !! Z.to_nat r = Some row ->
  let k := Z.to_nat (interval_value 0 (PyList.len row) c) in
  add_button button (Some r) None (Some c) rows
  = (Ok tt, <[Z.to_nat r := take k row ++ button :: drop k row]> rows).
Proof.
  intros H0 Hrow k.
  pose proof (lookup_lt_Some _ _ _ Hrow) as Hlt.
  assert (r <= PyList.len rows - 1) by (unfold PyList.len; lia).
  run_add_button.
  destruct (Z.ltb_spec (PyList.len rows - 1) r); [lia|].
  rewrite interval_value_inside by lia.
  rewrite subscript_in_range by lia.
  rewrite (getitem_in_range rows r row) by done. cbn.
  f_equal. apply list_eq. intros j. destruct (decide (j = Z.to_nat r)) as [->|Hne].
  - rewrite list_lookup_alter_eq, Hrow, list_lookup_insert_eq by done. cbn.
    rewrite insert_clamped; [done|]. apply interval_value_range, len_nonneg.
  - rewrite list_lookup_alter_ne, list_lookup_insert_ne by done. done.
Qed.

Lemma interval_value_clamp lower upper value :
  lower <= upper -> interval_value lower upper value = clamp lower upper value.
Proof.
  intros H. unfold interval_value, clamp.
  destruct (Z.ltb_spec value lower), (Z.ltb_spec upper value); lia.
Qed.

(** With a [from_row] that names a row from the front, the call does what
    the specification says. *)
Lemma add_button_from_row_insert_as_specified button r c rows :
  0 <= r <= PyList.len rows - 1 ->
  add_button button (Some r) None (Some c) rows
  = (Ok tt, insert_in_row_as_specified button r c rows).
Proof.
  intros Hr. unfold insert_in_row_as_specified.
  rewrite <- interval_value_clamp, interval_value_inside by lia.
  destruct (lookup_lt_is_Some_2 rows (Z.to_nat r)) as [row Hrow];
    [unfold PyList.len in Hr; lia|].
  rewrite Hrow, <- interval_value_clamp by apply len_nonneg.
  by rewrite (add_button_from_row_insert button r c rows row) by (done || lia).
Qed.

Lemma last_lookup_sub {A} (l : list A) x :
  last l = Some x -> l <> [] /\ l !! (length l - 1)%nat = Some x.
Proof.
  intros Hx. split; [by destruct l|].
  rewrite last_lookup in Hx.
  by replace (length l - 1)%nat with (Nat.pred (length l)) by lia.
Qed.

(** Neither row argument: the last row. *)
Lemma add_button_last_append button rows row :
  last rows = Some row ->
  add_button button None None None rows
  = (Ok tt, <[(length rows - 1)%nat := row ++ [button]]> rows).
Proof.
  intros [Hrows Hrow]%last_lookup_sub.
  run_add_button.
  rewrite subscript_last by done.
  by rewrite (alter_lookup_insert _ _ _ row).
Qed.

Lemma add_button_last_insert button c rows row :
  last rows = Some row ->
  let k := Z.to_nat (interval_value 0 (PyList.len row) c) in
  add_button button None None (Some c) rows
  = (Ok tt, <[(length rows - 1)%nat := take k row ++ button :: drop k row]> rows).
Proof.
  intros [Hrows Hrow]%last_lookup_sub k.
  run_add_button.
  unfold PyList.getitem. rewrite subscript_last by done. cbn. rewrite Hrow. cbn.
  f_equal. apply list_eq. intros j.
  destruct (decide (j = (length rows - 1)%nat)) as [->|Hne].
  - pose proof (lookup_lt_Some _ _ _ Hrow).
    rewrite list_lookup_alter_eq, Hrow, list_lookup_insert_eq by done. cbn.
    rewrite insert_clamped; [done|]. apply interval_value_range, len_nonneg.
  - rewrite list_lookup_alter_ne, list_lookup_insert_ne by done. done.
Qed.

(** On a grid without rows only the [insert_row] mode finds a place. *)
Lemma add_button_no_rows button fr ic :
  add_button button fr None ic [] = (Raise IndexError, []).
Proof.
  run_add_button.
  destruct fr as [r|].
  - destruct (PyList.len [] - 1 <? r); [done|].
    destruct ic; by rewrite subscript_nil.
  - destruct ic; by rewrite subscript_nil.
Qed.

(** *** How the number of rows and of buttons changes *)

Lemma add_button_rows_length button fr ir ic rows :
  let out := add_button button fr ir ic rows in
  (is_raise out.1 = true /\ out.2 = rows)
  \/ (out.1 = Ok tt /\ length out.2 = length rows /\ rows <> [])
  \/ (out.1 = Ok tt /\ length out.2 = S (length rows)).
Proof.
  run_add_button.
  destruct fr as [r|], ir as [i|], ic as [c|]; cbn;
    repeat match goal with
      | |- context [if ?b then _ else _] => destruct b; cbn
      | |- context [PyList.subscript ?l ?i] =>
          let E := fresh "E" in
          destruct (PyList.subscript l i) eqn:E; cbn;
          [apply subscript_bound in E|]
      | |- context [PyList.getitem ?l ?i] => destruct (PyList.getitem l i); cbn
      end;
    try (left; done);
    try (right; left; rewrite length_alter; repeat split; try done;
         intros ->; cbn in *; lia);
    right; right; (split; [done|]); unfold PyList.insert; apply length_inserted.
Qed.

Lemma buttons_insert rows p row row' :
  rows !! p = Some row -> length row' = S (length row) ->
  buttons (<[p := row']> rows) = S (buttons rows).
Proof.
  intros Hrow Hlen. pose proof (lookup_lt_Some _ _ _ Hrow) as Hlt.
  unfold buttons. rewrite insert_take_drop by done.
  rewrite <- (take_drop_middle rows p row Hrow) at 3.
  rewrite !concat_app, !length_app. cbn. rewrite !length_app. lia.
Qed.

Lemma buttons_new_row rows (k : nat) button :
  buttons (take k rows ++ [button] :: drop k rows) = S (buttons rows).
Proof.
  unfold buttons. rewrite <- (take_drop k rows) at 3.
  rewrite !concat_app, !length_app. cbn. lia.
Qed.

(** *** The statements about add_button *)

(** C4.  [add_button(button, insert_row=i)] with [from_row] unset returns,
    whatever [i] (and [insert_column]) is: [i] is clamped into
    [0, len(rows)] (to 0 when it is below, to [len(rows)] when it is above),
    the new row [[button]] is at the clamped position [k], the rows before
    [k] keep their place, the rows from [k] on move down by one and are
    otherwise unchanged, and [insert_row=0] puts the new row in front. *)
Theorem add_button_insert_row_clamped button i ic rows :
  exists (k : nat) (rows' : grid Button),
    add_button button None (Some i) ic rows = (Ok tt, rows')
    /\ (k <= length rows)%nat
    /\ (i <= 0 -> k = 0%nat)
    /\ (0 <= i <= PyList.len rows -> Z.of_nat k = i)
    /\ (PyList.len rows <= i -> k = length rows)
    /\ length rows' = S (length rows)
    /\ rows' !! k = Some [button]
    /\ (forall j : nat, (j < k)%nat -> rows' !! j = rows !! j)
    /\ (forall j : nat, (k <= j)%nat -> rows' !! S j = rows !! j)
    /\ (i = 0 -> rows' = [button] :: rows).
Proof.
  pose proof (len_nonneg rows) as Hlen.
  pose proof (interval_value_range 0 (PyList.len rows) i Hlen) as Hk.
  set (k := Z.to_nat (interval_value 0 (PyList.len rows) i)).
  assert (k <= length rows)%nat as Hle by (unfold PyList.len in *; lia).
  exists k, (take k rows ++ [button] :: drop k rows).
  split; [apply add_button_insert_row|].
  split; [done|].
  split; [intros ?; subst k; rewrite interval_value_below by lia; done|].
  split; [intros ?; subst k; rewrite interval_value_inside by lia; lia|].
  split; [intros ?; subst k; rewrite interval_value_above by lia;
          unfold PyList.len; lia|].
  split; [apply length_inserted|].
  split; [by apply lookup_inserted_eq|].
  split; [intros j Hj; by apply lookup_inserted_lt|].
  split; [intros j Hj; by apply lookup_inserted_gt|].
  intros ->. subst k. rewrite interval_value_inside by lia. done.
Qed.

(** C2, as the code has it.  Without the argument the grid is [[[]]], one
    empty row; a given list of rows is stored as it is, so an empty list
    gives a grid without rows.  No call of [add_button] lowers the number of
    rows, so a grid with a row keeps one, and after every call that returns
    the grid has a row. *)
Theorem init_default_and_rows_kept :
  __init__ (Button:=Button) None = [[]]
  /\ (forall k : grid Button, __init__ (Some k) = k)
  /\ (forall button fr ir ic (rows : grid Button),
        let out := add_button button fr ir ic rows in
        (length rows <= length out.2)%nat
        /\ (out.1 = Ok tt -> out.2 <> [])).
Proof.
  split; [done|]. split; [done|].
  intros button fr ir ic rows out.
  pose proof (add_button_rows_length button fr ir ic rows) as H.
  cbv zeta in H. fold out in H. clearbody out.
  destruct H as [[Hr Heq]|[(Hok & Hlen & Hne)|[Hok Hlen]]].
  - rewrite Heq. split; [done|]. intros Hok. by rewrite Hok in Hr.
  - split; [lia|]. intros _ Heq. rewrite Heq in Hlen.
    destruct rows; [done|]. cbn in Hlen. lia.
  - split; [lia|]. intros _ Heq. rewrite Heq in Hlen. cbn in Hlen. lia.
Qed.

(** On a grid with at least one row the two refusals are the only ones. *)
Lemma add_button_with_rows button fr ir ic rows :
  rows <> [] ->
  (forall r, fr = Some r -> ir = None -> is_Some ic -> 0 <= r) ->
  let out := add_button button fr ir ic rows in
  (out.1 = Raise IndexError <-> range_violation rows fr ir = true)
  /\ (out.1 = Raise AttributeError <-> both_given fr ir = true)
  /\ (is_raise out.1 = true -> out.2 = rows)
  /\ (range_violation rows fr ir = false -> both_given fr ir = false ->
      out.1 = Ok tt /\ buttons out.2 = S (buttons rows)).
Proof.
  intros Hrows Hslip out.
  assert (exists row0, rows !! 0%nat = Some row0) as [row0 Hrow0]
    by (destruct rows; [done|]; eauto).
  assert (exists rowl, last rows = Some rowl) as [rowl Hrowl]
    by (apply last_is_Some in Hrows as [x ->]; eauto).
  destruct (last_lookup_sub rows rowl Hrowl) as [_ Hrowl'].
  destruct fr as [r|], ir as [i|]; cbn [range_violation both_given].
  - (* both given *)
    subst out. rewrite add_button_both. cbn. repeat split; done.
  - (* from_row *)
    destruct (Z.ltb_spec (PyList.len rows - 1) r) as [Hbig|Hok].
    + subst out. rewrite add_button_from_row_too_large by done. cbn.
      repeat split; done.
    + assert (out.1 = Ok tt /\ buttons out.2 = S (buttons rows)) as [Hout Hb].
      { subst out. destruct ic as [c|].
        - assert (0 <= r) as H0 by (apply Hslip; eauto).
          destruct (lookup_lt_is_Some_2 rows (Z.to_nat r)) as [row Hrow];
            [unfold PyList.len in Hok; lia|].
          rewrite (add_button_from_row_insert button r c rows row) by done.
          split; [done|]. cbn [snd].
          apply (buttons_insert _ _ row); [done|apply length_inserted].
        - destruct (Z.lt_ge_cases r 0) as [Hneg|H0].
          + rewrite (add_button_from_row_negative_append button r rows row0)
              by done.
            split; [done|]. cbn [snd].
            apply (buttons_insert _ _ row0); [done|].
            rewrite length_app. cbn. lia.
          + destruct (lookup_lt_is_Some_2 rows (Z.to_nat r)) as [row Hrow];
              [unfold PyList.len in Hok; lia|].
            rewrite (add_button_from_row_append button r rows row) by done.
            split; [done|]. cbn [snd].
            apply (buttons_insert _ _ row); [done|].
            rewrite length_app. cbn. lia. }
      rewrite Hout. cbn. repeat split; done.
  - (* insert_row *)
    subst out. rewrite add_button_insert_row. cbn.
    repeat split; try done. apply buttons_new_row.
  - (* neither *)
    assert (out.1 = Ok tt /\ buttons out.2 = S (buttons rows)) as [Hout Hb].
    { subst out. destruct ic as [c|].
      - rewrite (add_button_last_insert button c rows rowl) by done.
        split; [done|]. cbn [snd].
        apply (buttons_insert _ _ rowl); [done|apply length_inserted].
      - rewrite (add_button_last_append button rows rowl) by done.
        split; [done|]. cbn [snd].
        apply (buttons_insert _ _ rowl); [done|].
        rewrite length_app. cbn. lia. }
    rewrite Hout. cbn. repeat split; done.
Qed.

Lemma append_as_insert {A} (l : list A) x :
  l ++ [x] = take (length l) l ++ x :: drop (length l) l.
Proof. by rewrite take_ge, drop_ge by done. Qed.

(** Outside the refusals the call returns, with the grid of the
    specification. *)
Lemma add_button_returns_as_specified button fr ir ic rows :
  (forall r, fr = Some r -> ir = None -> is_Some ic -> 0 <= r) ->
  range_violation rows fr ir = false ->
  both_given fr ir = false ->
  ~ (rows = [] /\ ir = None) ->
  add_button button fr ir ic rows
  = (Ok tt, add_button_as_specified button fr ir ic rows).
Proof.
  intros Hslip Hrange Hboth Hrows.
  destruct fr as [r|], ir as [i|]; cbn [range_violation both_given] in *;
    try done.
  - (* from_row *)
    assert (rows <> []) as Hne by (intros ->; by apply Hrows).
    apply Z.ltb_ge in Hrange. pose proof (len_nonneg rows) as Hlen.
    assert (0 < PyList.len rows) as Hpos
      by (destruct rows; [done|unfold PyList.len; cbn [length]; lia]).
    destruct ic as [c|].
    + assert (0 <= r) as H0 by (apply Hslip; eauto).
      by rewrite add_button_from_row_insert_as_specified by lia.
    + unfold add_button_as_specified.
      rewrite <- interval_value_clamp by lia.
      destruct (Z.lt_ge_cases r 0) as [Hneg|H0].
      * rewrite interval_value_below by lia. change (Z.to_nat 0) with 0%nat.
        destruct (lookup_lt_is_Some_2 rows 0) as [row Hrow];
          [unfold PyList.len in Hpos; lia|].
        rewrite Hrow, <- append_as_insert.
        by apply add_button_from_row_negative_append.
      * rewrite interval_value_inside by lia.
        destruct (lookup_lt_is_Some_2 rows (Z.to_nat r)) as [row Hrow];
          [unfold PyList.len in Hrange; lia|].
        rewrite Hrow, <- append_as_insert.
        by apply add_button_from_row_append.
  - (* insert_row *)
    unfold add_button_as_specified.
    rewrite <- interval_value_clamp by apply len_nonneg.
    apply add_button_insert_row.
  - (* neither *)
    assert (rows <> []) as Hne by (intros ->; by apply Hrows).
    destruct (last_is_Some rows) as [_ Hl]. destruct (Hl Hne) as [row Hrow].
    destruct (last_lookup_sub rows row Hrow) as [_ Hlook].
    unfold add_button_as_specified. rewrite Hlook. destruct ic as [c|].
    + rewrite <- interval_value_clamp by apply len_nonneg.
      by rewrite (add_button_last_insert button c rows row).
    + rewrite <- append_as_insert. by apply add_button_last_append.
Qed.

(** C1, as the code has it.  Leaving aside the calls that give a negative
    [from_row] together with [insert_column]: [add_button] raises IndexError
    exactly when [from_row] is given without [insert_row] and is greater than
    [len(rows) - 1], or the grid has no rows and [insert_row] is not given; it
    raises AttributeError exactly when [from_row] and [insert_row] are both
    given; a call that raises leaves the rows as they were; every other call
    returns, with one button more and every index clamped to the nearest
    valid bound, whatever the values of [insert_row], [insert_column] and
    [from_row] are. *)
Theorem add_button_refusals button fr ir ic rows :
  (forall r, fr = Some r -> ir = None -> is_Some ic -> 0 <= r) ->
  let out := add_button button fr ir ic rows in
  (out.1 = Raise IndexError
   <-> range_violation rows fr ir = true \/ (rows = [] /\ ir = None))
  /\ (out.1 = Raise AttributeError <-> both_given fr ir = true)
  /\ (is_raise out.1 = true -> out.2 = rows)
  /\ (is_raise out.1 = false -> out.1 = Ok tt /\ buttons out.2 = S (buttons rows))
  /\ (range_violation rows fr ir = false -> both_given fr ir = false ->
      ~ (rows = [] /\ ir = None) ->
      out = (Ok tt, add_button_as_specified button fr ir ic rows)).
Proof.
  intros Hslip out.
  split; [|split; [|split; [|split]]];
    [| | | |intros; by apply add_button_returns_as_specified];
    destruct (decide (rows = [])) as [->|Hrows].
  - destruct ir as [i|].
    + destruct fr as [r|]; subst out.
      * rewrite add_button_both. cbn. split; [done|]. by intros [?|[_ ?]].
      * rewrite add_button_insert_row.
        cbn [fst snd is_raise both_given range_violation].
        split; [done|]. by intros [?|[_ ?]].
    + subst out. rewrite add_button_no_rows. cbn. split; [|done].
      intros _. by right.
  - destruct (add_button_with_rows button fr ir ic rows Hrows Hslip) as (Hi & _).
    fold out in Hi. rewrite Hi. split; [by left|]. by intros [?|[? _]].
  - destruct ir as [i|]; [destruct fr as [r|]|]; subst out.
    + by rewrite add_button_both.
    + by rewrite add_button_insert_row.
    + rewrite add_button_no_rows. cbn. by destruct fr.
  - by destruct (add_button_with_rows button fr ir ic rows Hrows Hslip)
      as (_ & Ha & _).
  - destruct ir as [i|]; [destruct fr as [r|]|]; subst out.
    + by rewrite add_button_both.
    + by rewrite add_button_insert_row.
    + by rewrite add_button_no_rows.
  - by destruct (add_button_with_rows button fr ir ic rows Hrows Hslip)
      as (_ & _ & Hr & _).
  - destruct ir as [i|]; [destruct fr as [r|]|]; subst out.
    + by rewrite add_button_both.
    + rewrite add_button_insert_row. cbn [fst snd]. intros _.
      split; [done|]. apply (buttons_new_row []).
    + by rewrite add_button_no_rows.
  - destruct (add_button_with_rows button fr ir ic rows Hrows Hslip)
      as (Hi & Ha & _ & Hok).
    fold out in Hi, Ha, Hok. intros Hno. apply Hok.
    + apply not_true_is_false. intros E. apply Hi in E. by rewrite E in Hno.
    + apply not_true_is_false. intros E. apply Ha in E. by rewrite E in Hno.
Qed.

End AddButton.

(** ** __eq__ and __hash__ *)

Section Equality.
Context {Button Foreign : Type}.
Variable button_eq : Button -> Button -> bool.
Variable button_hash : Button -> Z.
Variable tuple_hash : list Z -> Z.
Implicit Types (a b other rows : grid Button) (row : list Button).

(** The loop over one row, started at column [jdx] with enough columns left
    on the other side, does not raise: it runs to its end when the buttons
    agree pairwise and returns [False] at the first pair that differs. *)
Lemma eq_buttons_runs other idx other_row row jdx :
  other !! idx = Some other_row ->
  (jdx + length row <= length other_row)%nat ->
  (eq_buttons button_eq other idx jdx row = Ok None
   /\ forall (j : nat) x y, row !! j = Some x -> other_row !! (jdx + j)%nat = Some y ->
        button_eq x y = true)
  \/ (eq_buttons button_eq other idx jdx row = Ok (Some false)
      /\ exists (j : nat) x y, row !! j = Some x /\ other_row !! (jdx + j)%nat = Some y
           /\ button_eq x y = false).
Proof.
  intros Hother. revert jdx. induction row as [|button row IH]; intros jdx Hlen.
  - left. split; [done|]. intros j x y Hx. by rewrite lookup_nil in Hx.
  - cbn [eq_buttons length] in *. rewrite Hother.
    destruct (lookup_lt_is_Some_2 other_row jdx) as [o Ho]; [lia|].
    rewrite Ho. destruct (button_eq button o) eqn:Hb; cbn [negb].
    + destruct (IH (S jdx)) as [[-> Hall]|[-> (j & x & y & Hx & Hy & Hne)]]; [lia| |].
      * left. split; [done|]. intros [|j] x y Hx Hy.
        -- rewrite Nat.add_0_r in Hy. cbn in Hx. congruence.
        -- apply (Hall j); [done|].
           by replace (S jdx + j)%nat with (jdx + S j)%nat by lia.
      * right. split; [done|]. exists (S j), x, y.
        by replace (jdx + S j)%nat with (S jdx + j)%nat by lia.
    + right. split; [done|]. exists 0%nat, button, o.
      by rewrite Nat.add_0_r.
Qed.

Lemma eq_rows_runs other rows idx :
  (idx + length rows <= length other)%nat ->
  (eq_rows button_eq other idx rows = Ok None
   /\ forall (i : nat) ra rb, rows !! i = Some ra -> other !! (idx + i)%nat = Some rb ->
        length ra = length rb
        /\ forall (j : nat) x y, ra !! j = Some x -> rb !! j = Some y ->
             button_eq x y = true)
  \/ (eq_rows button_eq other idx rows = Ok (Some false)
      /\ exists (i : nat) ra rb, rows !! i = Some ra /\ other !! (idx + i)%nat = Some rb
           /\ (length ra <> length rb
               \/ exists (j : nat) x y, ra !! j = Some x /\ rb !! j = Some y
                    /\ button_eq x y = false)).
Proof.
  revert idx. induction rows as [|row rows IH]; intros idx Hlen.
  - left. split; [done|]. intros i ra rb Hra. by rewrite lookup_nil in Hra.
  - cbn [eq_rows length] in *.
    destruct (lookup_lt_is_Some_2 other idx) as [orow Ho]; [lia|].
    rewrite Ho. destruct (Nat.eqb_spec (length row) (length orow)) as [Hl|Hl];
      cbn [negb].
    + destruct (eq_buttons_runs other idx orow row 0 Ho)
        as [[-> Hall]|[-> (j & x & y & Hx & Hy & Hne)]]; [lia| |]; cbn [rbind].
      * destruct (IH (S idx)) as [[-> Hrest]|[-> (i & ra & rb & Hra & Hrb & Hd)]];
          [lia| |].
        -- left. split; [done|]. intros [|i] ra rb Hra Hrb.
           ++ rewrite Nat.add_0_r in Hrb. cbn in Hra.
              assert (ra = row) as -> by congruence.
              assert (rb = orow) as -> by congruence.
              split; [done|]. intros j x y Hx Hy. by apply (Hall j).
           ++ apply (Hrest i); [done|].
              by replace (S idx + i)%nat with (idx + S i)%nat by lia.
        -- right. split; [done|]. exists (S i), ra, rb.
           by replace (idx + S i)%nat with (S idx + i)%nat by lia.
      * right. split; [done|]. exists 0%nat, row, orow.
        rewrite Nat.add_0_r. split; [done|]. split; [done|].
        right. by exists j, x, y.
    + right. split; [done|]. exists 0%nat, row, orow.
      rewrite Nat.add_0_r. split; [done|]. split; [done|]. by left.
Qed.

(** [__eq__] on two grids never raises and decides [same_grid]. *)
Lemma eq_decides_same_grid a b :
  (__eq__ (Foreign:=Foreign) button_eq a (Markup b) = Ok true /\ same_grid button_eq a b)
  \/ (__eq__ (Foreign:=Foreign) button_eq a (Markup b) = Ok false
      /\ ~ same_grid button_eq a b).
Proof.
  unfold __eq__, same_grid.
  destruct (Nat.eqb_spec (length a) (length b)) as [Hl|Hl]; cbn [negb].
  - destruct (eq_rows_runs b a 0) as [[-> Hall]|[-> (i & ra & rb & Hra & Hrb & Hd)]];
      [lia| |]; cbn [rbind].
    + left. split; [done|]. split; [done|]. intros i ra rb Hra Hrb.
      by apply (Hall i).
    + right. split; [done|]. intros [_ Hall].
      destruct (Hall i ra rb Hra Hrb) as [Hlen Hbs].
      destruct Hd as [Hd|(j & x & y & Hx & Hy & Hne)]; [done|].
      rewrite (Hbs j x y Hx Hy) in Hne. done.
  - right. split; [done|]. by intros [? _].
Qed.

(** C5.  For two grids [a] and [b], [a == b] never raises and is true
    exactly when they have the same number of rows, every row has as many
    buttons as the row at the same index of the other grid, and the buttons
    at the same row and column are equal by the buttons' own equality.  For
    a comparand that is not a grid the answer is false. *)
Theorem eq_structural :
  (forall a b, exists r : bool,
      __eq__ (Foreign:=Foreign) button_eq a (Markup b) = Ok r
      /\ (r = true <-> same_grid button_eq a b))
  /\ (forall a (o : Foreign), __eq__ button_eq a (Other o) = Ok false).
Proof.
  split; [|done]. intros a b.
  destruct (eq_decides_same_grid a b) as [[-> H]|[-> H]].
  - exists true. by split.
  - exists false. split; [done|]. split; [done|]. intros ?. by destruct H.
Qed.

Lemma same_grid_hashes a b :
  (forall x y, button_eq x y = true -> button_hash x = button_hash y) ->
  same_grid button_eq a b ->
  map (fun row => tuple_hash (map (fun button => button_hash button) row)) a
  = map (fun row => tuple_hash (map (fun button => button_hash button) row)) b.
Proof.
  intros Hhash [Hlen Hrows]. apply list_eq. intros i.
  rewrite !list_lookup_fmap.
  destruct (a !! i) as [ra|] eqn:Hra, (b !! i) as [rb|] eqn:Hrb; cbn.
  - destruct (Hrows i ra rb Hra Hrb) as [Hl Hbs]. do 2 f_equal.
    apply list_eq. intros j. rewrite !list_lookup_fmap.
    destruct (ra !! j) as [x|] eqn:Hx, (rb !! j) as [y|] eqn:Hy; cbn.
    + f_equal. apply Hhash. by apply (Hbs j).
    + apply lookup_lt_Some in Hx. apply lookup_ge_None in Hy. lia.
    + apply lookup_lt_Some in Hy. apply lookup_ge_None in Hx. lia.
    + done.
  - apply lookup_lt_Some in Hra. apply lookup_ge_None in Hrb. lia.
  - apply lookup_lt_Some in Hrb. apply lookup_ge_None in Hra. lia.
  - done.
Qed.

Lemma map_inj_list {A B} (f : A -> B) :
  (forall x y, f x = f y -> x = y) ->
  forall l1 l2 : list A, map f l1 = map f l2 -> l1 = l2.
Proof.
  intros Hf l1. induction l1 as [|x l1 IH]; intros [|y l2] H; cbn in H;
    try done.
  injection H as Hx Hl. f_equal; [by apply Hf|by apply IH].
Qed.

(** The hash is the tuple hash, taken twice, of the nested sequence of the
    buttons' hashes. *)
Lemma hash_of_nested_hashes a :
  __hash__ button_hash tuple_hash a
  = tuple_hash (map tuple_hash (map (map button_hash) a)).
Proof. unfold __hash__. by rewrite map_map. Qed.

(** C6.  When equal buttons have equal hashes, two grids that [__eq__]
    finds equal have the same [__hash__].  The hash is derived from the full
    nested sequence of the buttons: it is the tuple hash of the tuple hashes
    of the rows' button hashes, so two grids with the same nested sequence of
    button hashes have the same hash, and, when the tuple hash tells any two
    tuples apart, two grids with the same hash have the same nested sequence
    of button hashes, row by row and column by column. *)
Theorem hash_respects_eq a b :
  ((forall x y, button_eq x y = true -> button_hash x = button_hash y) ->
   __eq__ (Foreign:=Foreign) button_eq a (Markup b) = Ok true ->
   __hash__ button_hash tuple_hash a = __hash__ button_hash tuple_hash b)
  /\ __hash__ button_hash tuple_hash a
     = tuple_hash (map tuple_hash (map (map button_hash) a))
  /\ (map (map button_hash) a = map (map button_hash) b ->
      __hash__ button_hash tuple_hash a = __hash__ button_hash tuple_hash b)
  /\ ((forall l1 l2, tuple_hash l1 = tuple_hash l2 -> l1 = l2) ->
      __hash__ button_hash tuple_hash a = __hash__ button_hash tuple_hash b ->
      map (map button_hash) a = map (map button_hash) b).
Proof.
  split; [|split; [|split]].
  - intros Hhash Heq. unfold __hash__. f_equal.
    apply same_grid_hashes; [done|].
    destruct (eq_decides_same_grid a b) as [[_ H]|[H _]]; [done|congruence].
  - apply hash_of_nested_hashes.
  - intros H. by rewrite !hash_of_nested_hashes, H.
  - intros Hinj H. rewrite !hash_of_nested_hashes in H.
    apply Hinj in H. by apply (map_inj_list tuple_hash Hinj).
Qed.

End Equality.

(** ** to_dict and de_json *)

Section Serialization.
Context {Button Bot : Type}.
Variable button_to_dict : Button -> JSONDict.
Variable button_de_json : JSON -> Bot -> option Button.
Variable base_to_dict : grid Button -> JSONDict.
Implicit Types (g rows : grid Button) (data : JSONDict) (bot : Bot).

Lemma dict_get_set k v data : PyDict.get k (PyDict.set k v data) = Some v.
Proof.
  induction data as [|[k' v'] data IH]; cbn.
  - by rewrite decide_True.
  - destruct (decide (k = k')) as [->|Hne]; cbn.
    + by rewrite decide_True.
    + by rewrite decide_False.
Qed.

Lemma dict_set_nonempty k v data : PyDict.set k v data <> [].
Proof. destruct data as [|[k' v'] data]; cbn; [done|]. by destruct (decide _). Qed.

(** The loop of [to_dict] keeps the rows and the buttons in their order. *)
Lemma rows_to_json_map rows :
  rows_to_json button_to_dict rows
  = map (fun row => JArr (map (fun x => JObj (button_to_dict x)) row)) rows.
Proof.
  unfold rows_to_json.
  enough (forall acc,
    foldl (fun acc row =>
             PyList.append (JArr (map (fun x => JObj (button_to_dict x)) row)) acc)
          acc rows
    = acc ++ map (fun row => JArr (map (fun x => JObj (button_to_dict x)) row)) rows)
    as H by apply (H []).
  induction rows as [|row rows IH]; intros acc; cbn.
  - by rewrite app_nil_r.
  - rewrite IH. unfold PyList.append. by rewrite <- app_assoc.
Qed.

(** The inner loop of [de_json] keeps the buttons that deserialize. *)
Lemma de_json_row_omap bot cols tmp :
  de_json_row button_de_json bot cols tmp
  = tmp ++ omap (fun col => button_de_json col bot) cols.
Proof.
  revert tmp. induction cols as [|col cols IH]; intros tmp; cbn.
  - by rewrite app_nil_r.
  - destruct (button_de_json col bot) as [btn|]; rewrite IH; [|done].
    unfold PyList.append. by rewrite <- app_assoc.
Qed.

(** The outer loop of [de_json] on a list of lists. *)
Lemma de_json_rows_arrays bot (colss : list (list JSON)) keyboard :
  de_json_rows button_de_json bot (map JArr colss) keyboard
  = Ok (keyboard ++ map (omap (fun col => button_de_json col bot)) colss).
Proof.
  revert keyboard. induction colss as [|cols colss IH]; intros keyboard; cbn.
  - by rewrite app_nil_r.
  - rewrite IH, de_json_row_omap. unfold PyList.append. cbn.
    by rewrite <- app_assoc.
Qed.

Lemma de_json_arrays data bot (colss : list (list JSON)) :
  data <> [] ->
  PyDict.get "inline_keyboard" data = Some (JArr (map JArr colss)) ->
  de_json button_de_json (Some data) bot
  = Ok (Some (map (omap (fun col => button_de_json col bot)) colss)).
Proof.
  intros Hne Hget. unfold de_json, parse_data, PyDict.getitem.
  destruct data as [|kv data]; [done|]. cbn [truthy negb].
  rewrite Hget. cbn [rbind iterate].
  by rewrite de_json_rows_arrays.
Qed.

(** C8.  [de_json] returns [None] for an absent and for an empty mapping.
    For a mapping whose ["inline_keyboard"] is a list of lists it returns a
    grid with one row per inner list, in order, that holds the buttons of
    the entries that deserialize, in order: an entry whose deserialization
    is [None] is left out of its row and the entries after it are still
    read. *)
Theorem de_json_skips_missing_buttons bot :
  de_json button_de_json None bot = Ok None
  /\ de_json button_de_json (Some []) bot = Ok None
  /\ (forall data (colss : list (list JSON)),
        data <> [] ->
        PyDict.get "inline_keyboard" data = Some (JArr (map JArr colss)) ->
        de_json button_de_json (Some data) bot
        = Ok (Some (map (omap (fun col => button_de_json col bot)) colss))).
Proof.
  split; [done|]. split; [done|]. intros data colss. apply de_json_arrays.
Qed.

(** C10.  On a mapping that is not empty and has no ["inline_keyboard"]
    key, [de_json] returns neither a grid nor [None]: the subscript raises
    KeyError. *)
Theorem de_json_missing_key data bot :
  data <> [] ->
  PyDict.get "inline_keyboard" data = None ->
  de_json button_de_json (Some data) bot = Raise (KeyError "inline_keyboard").
Proof.
  intros Hne Hget. unfold de_json, parse_data, PyDict.getitem.
  destruct data as [|kv data]; [done|]. cbn [truthy negb]. by rewrite Hget.
Qed.

(** What [de_json] makes of the output of [to_dict]. *)
Lemma de_json_to_dict g bot :
  de_json button_de_json (Some (to_dict button_to_dict base_to_dict g)) bot
  = Ok (Some (map (omap (fun x => button_de_json (JObj (button_to_dict x)) bot)) g)).
Proof.
  unfold to_dict. rewrite rows_to_json_map.
  rewrite <- (map_map (fun row => map (fun x => JObj (button_to_dict x)) row) JArr g).
  rewrite (de_json_arrays _ bot (map (fun row => map (fun x => JObj (button_to_dict x)) row) g)).
  - rewrite map_map. do 2 f_equal. apply map_ext. intros row.
    induction row as [|x row IH]; [done|]. cbn.
    destruct (button_de_json _ _); cbn; by rewrite IH.
  - apply dict_set_nonempty.
  - apply dict_get_set.
Qed.

End Serialization.

(** ** Round trip *)

Section RoundTrip.
Context {Button Bot Foreign : Type}.
Variable button_to_dict : Button -> JSONDict.
Variable button_de_json : JSON -> Bot -> option Button.
Variable button_eq : Button -> Button -> bool.
Variable base_to_dict : grid Button -> JSONDict.
Implicit Types (g : grid Button) (row : list Button) (bot : Bot).

(** A row whose buttons all come back comes back button by button. *)
Lemma omap_round_trip (f : Button -> option Button) row :
  (forall (j : nat) x, row !! j = Some x ->
     exists x', f x = Some x' /\ button_eq x' x = true) ->
  Forall2 (fun x' x => button_eq x' x = true) (omap f row) row.
Proof.
  induction row as [|x row IH]; intros H; cbn; [constructor|].
  destruct (H 0%nat x eq_refl) as (x' & -> & Hx).
  constructor; [done|]. apply IH. intros j y Hy. by apply (H (S j)).
Qed.

Lemma same_grid_Forall2 (a b : grid Button) :
  Forall2 (Forall2 (fun x y => button_eq x y = true)) a b ->
  same_grid button_eq a b.
Proof.
  intros H. split; [by eapply Forall2_length|].
  intros i ra rb Hra Hrb.
  pose proof (Forall2_lookup_lr _ _ _ _ _ _ H Hra Hrb) as Hrow.
  split; [by eapply Forall2_length|].
  intros j x y Hx Hy. exact (Forall2_lookup_lr _ _ _ _ _ _ Hrow Hx Hy).
Qed.

(** C7.  When every button [x] of the grid [g] comes back from its own
    serialized form as a button equal to [x], [de_json] applied to
    [to_dict] of [g] returns a grid that [__eq__] finds equal to [g]:
    same rows in the same order, same columns in the same order. *)
Theorem de_json_to_dict_round_trip g bot :
  (forall (i j : nat) row x, g !! i = Some row -> row !! j = Some x ->
     exists x', button_de_json (JObj (button_to_dict x)) bot = Some x'
                /\ button_eq x' x = true) ->
  exists g',
    de_json button_de_json (Some (to_dict button_to_dict base_to_dict g)) bot
    = Ok (Some g')
    /\ __eq__ (Foreign:=Foreign) button_eq g' (Markup g) = Ok true.
Proof.
  intros Hback. eexists. split; [apply de_json_to_dict|].
  set (f := fun x => button_de_json (JObj (button_to_dict x)) bot).
  assert (same_grid button_eq (map (omap f) g) g) as Hsame.
  { apply same_grid_Forall2. apply Forall2_fmap_l, Forall2_lookup.
    intros i. destruct (g !! i) as [row|] eqn:Hrow; constructor.
    apply omap_round_trip. intros j x Hx. by apply (Hback i j row). }
  destruct (eq_decides_same_grid (Foreign:=Foreign) button_eq (map (omap f) g) g)
    as [[H _]|[_ H]]; done.
Qed.

End RoundTrip.

(** ** add_from_markup *)

Section Merge.
Context {Button : Type}.
Implicit Types (A B : grid Button).

Lemma insert_rows_at_index B : forall A (i : nat),
  (i <= length A)%nat ->
  insert_rows i B A = take i A ++ B ++ drop i A.
Proof.
  induction B as [|row B IH]; intros A i Hi; cbn [insert_rows].
  - by rewrite app_nil_l, take_drop.
  - rewrite insert_clamped by (unfold PyList.len; lia).
    rewrite Nat2Z.id, IH by (rewrite length_inserted; lia).
    rewrite take_app, drop_app, length_take.
    replace (i `min` length A)%nat with i by lia.
    rewrite take_take, (drop_ge (take i A) (S i)) by (rewrite length_take; lia).
    replace (S i `min` i)%nat with i by lia.
    replace (S i - i)%nat with 1%nat by lia. cbn.
    rewrite take_0, drop_0. by rewrite <- app_assoc.
Qed.

(** C9.  Merging the rows of [B] into [A] at an insertion index [i] of [A]
    gives the first [i] rows of [A], then all rows of [B] in their order,
    then the remaining rows of [A] in their order: the rows of [A] from
    [i] on move down by [len(B)], and no row is changed. *)
Theorem add_from_markup_contiguous A B (i : nat) :
  (i <= length A)%nat ->
  exists rows',
    add_from_markup B (Some i) A = (Ok tt, rows')
    /\ rows' = take i A ++ B ++ drop i A
    /\ (forall j : nat, (j < i)%nat -> rows' !! j = A !! j)
    /\ (forall j : nat, (j < length B)%nat -> rows' !! (i + j)%nat = B !! j)
    /\ (forall j : nat, (i <= j)%nat -> rows' !! (length B + j)%nat = A !! j).
Proof.
  intros Hi. eexists. split; [done|]. cbn.
  rewrite insert_rows_at_index by done.
  split; [done|]. repeat split; intros j Hj.
  - rewrite lookup_app_l by (rewrite length_take; lia).
    by rewrite lookup_take_lt.
  - rewrite lookup_app_r by (rewrite length_take; lia).
    rewrite length_take. replace (i + j - i `min` length A)%nat with j by lia.
    by rewrite lookup_app_l.
  - rewrite lookup_app_r by (rewrite length_take; lia).
    rewrite length_take, lookup_app_r by lia.
    rewrite lookup_drop. f_equal. lia.
Qed.

End Merge.

(** ** add_button: every mode, and calls in a row *)

Section AddButtonModes.
Context {Button : Type}.
Implicit Types (rows : grid Button) (row : list Button) (button : Button).

Lemma insert_pos_bound {A} (l : list A) i : (PyList.insert_pos l i <= length l)%nat.
Proof.
  unfold PyList.insert_pos, PyList.len. cbv zeta.
  repeat match goal with
    | |- context [Z.ltb ?a ?b] => destruct (Z.ltb_spec a b)
    end; lia.
Qed.

Lemma subscript_raises {A} (l : list A) i e :
  PyList.subscript l i = Raise e -> e = IndexError.
Proof.
  unfold PyList.subscript.
  repeat match goal with
    | |- (if ?b then _ else _) = _ -> _ => destruct b
    end; congruence.
Qed.

Lemma getitem_raises {A} (l : list A) i e :
  PyList.getitem l i = Raise e -> e = IndexError.
Proof.
  unfold PyList.getitem.
  destruct (PyList.subscript l i) as [p|e'] eqn:E; cbn.
  - destruct (l !! p); congruence.
  - apply subscript_raises in E. congruence.
Qed.

Lemma alter_insert_shape rows (p : nat) c button :
  (p < length rows)%nat ->
  exists row (w : nat),
    rows !! p = Some row /\ (w <= length row)%nat
    /\ alter (PyList.insert c button) p rows
       = <[p := take w row ++ button :: drop w row]> rows.
Proof.
  intros Hp. destruct (lookup_lt_is_Some_2 rows p Hp) as [row Hrow].
  exists row, (PyList.insert_pos row c).
  split; [done|]. split; [apply insert_pos_bound|].
  by rewrite (alter_lookup_insert _ _ _ row).
Qed.

Lemma alter_append_shape rows (p : nat) button :
  (p < length rows)%nat ->
  exists row (w : nat),
    rows !! p = Some row /\ (w <= length row)%nat
    /\ alter (PyList.append button) p rows
       = <[p := take w row ++ button :: drop w row]> rows.
Proof.
  intros Hp. destruct (lookup_lt_is_Some_2 rows p Hp) as [row Hrow].
  exists row, (length row). split; [done|]. split; [done|].
  rewrite (alter_lookup_insert _ _ _ row) by done.
  unfold PyList.append. by rewrite take_ge, drop_ge by done.
Qed.

(** What a call of [add_button] comes to, whatever its arguments: it raises
    and leaves the rows alone, or puts the button into one row, or puts a new
    row of one button between the rows. *)
Lemma add_button_shape button fr ir ic rows :
  (exists e, add_button button fr ir ic rows = (Raise e, rows)
             /\ (e = IndexError \/ e = AttributeError))
  \/ (ir = None
      /\ exists (p : nat) row (w : nat),
           rows !! p = Some row /\ (w <= length row)%nat
           /\ add_button button fr ir ic rows
              = (Ok tt, <[p := take w row ++ button :: drop w row]> rows))
  \/ (fr = None /\ is_Some ir
      /\ exists k : nat,
           (k <= length rows)%nat
           /\ add_button button fr ir ic rows
              = (Ok tt, take k rows ++ [button] :: drop k rows)).
Proof.
  destruct fr as [r|], ir as [i|].
  - left. exists AttributeError. split; [done|by right].
  - run_add_button. destruct (PyList.len rows - 1 <? r).
    { left. exists IndexError. split; [done|by left]. }
    destruct ic as [c|]; cbn;
      (destruct (PyList.subscript rows (interval_value 0 (PyList.len rows - 1) r))
         as [p|e] eqn:E; cbn;
       [apply subscript_bound in E
       |apply subscript_raises in E as ->; left; exists IndexError;
        split; [done|by left]]).
    + destruct (PyList.getitem rows r) as [x|e] eqn:G; cbn.
      * right. left. split; [done|].
        destruct (alter_insert_shape rows p
                    (interval_value 0 (PyList.len x) c) button E)
          as (row & w & Hrow & Hw & ->). by exists p, row, w.
      * apply getitem_raises in G as ->. left. exists IndexError.
        split; [done|by left].
    + right. left. split; [done|].
      destruct (alter_append_shape rows p button E) as (row & w & Hrow & Hw & ->).
      by exists p, row, w.
  - right. right. split; [done|]. split; [by eexists|].
    rewrite add_button_insert_row. eexists. split; [|done].
    pose proof (interval_value_range 0 (PyList.len rows) i (len_nonneg rows)).
    unfold PyList.len in *. lia.
  - destruct rows as [|row0 rows0] eqn:Hrows.
    { left. exists IndexError. rewrite add_button_no_rows. split; [done|by left]. }
    rewrite <- Hrows.
    assert (rows <> []) as Hne by (by rewrite Hrows).
    destruct (last_is_Some rows) as [_ Hl]. destruct (Hl Hne) as [rowl Hrowl].
    destruct (last_lookup_sub rows rowl Hrowl) as [_ Hlook].
    right. left. split; [done|]. destruct ic as [c|].
    + rewrite (add_button_last_insert button c rows rowl) by done.
      eexists _, rowl, _. split; [done|]. split; [|done].
      pose proof (interval_value_range 0 (PyList.len rowl) c (len_nonneg rowl)).
      unfold PyList.len in *. lia.
    + rewrite (add_button_last_append button rows rowl) by done.
      exists (length rows - 1)%nat, rowl, (length rowl).
      split; [done|]. split; [done|]. by rewrite take_ge, drop_ge by done.
Qed.

(** X1.  [interval_value(lower, upper, value)] is never above [upper] and
    grows with [value]; when [lower <= upper] it lies in [lower, upper], is
    [value] itself inside the interval and does not change when applied
    again; when [upper < lower], as with [upper = max_row] on a grid without
    rows, it is [upper] whatever the value. *)
Theorem interval_value_bounds lower upper value :
  interval_value lower upper value <= upper
  /\ (forall value', value <= value' ->
        interval_value lower upper value <= interval_value lower upper value')
  /\ (lower <= upper ->
      lower <= interval_value lower upper value
      /\ (lower <= value <= upper -> interval_value lower upper value = value)
      /\ interval_value lower upper (interval_value lower upper value)
         = interval_value lower upper value)
  /\ (upper < lower -> interval_value lower upper value = upper).
Proof. unfold interval_value. repeat split; intros; lia. Qed.

(** X2.  [add_button(button, from_row=r)] without [insert_row] and
    [insert_column], on a grid with a row and with [r <= len(rows) - 1]:
    the button is appended to the row at [max(0, r)], so a negative [r]
    means row 0 and not a row counted from the end; the other rows stay as
    they are and the number of rows does not change. *)
Theorem add_button_from_row_appends button r rows :
  rows <> [] -> r <= PyList.len rows - 1 ->
  exists row rows',
    rows !! Z.to_nat (Z.max 0 r) = Some row
    /\ add_button button (Some r) None None rows = (Ok tt, rows')
    /\ rows' !! Z.to_nat (Z.max 0 r) = Some (row ++ [button])
    /\ length rows' = length rows
    /\ (forall j : nat, j <> Z.to_nat (Z.max 0 r) -> rows' !! j = rows !! j).
Proof.
  intros Hne Hr.
  assert (0 < length rows)%nat as Hlen by (destruct rows; [done|cbn; lia]).
  destruct (lookup_lt_is_Some_2 rows (Z.to_nat (Z.max 0 r))) as [row Hrow];
    [unfold PyList.len in Hr; lia|].
  exists row, (<[Z.to_nat (Z.max 0 r) := row ++ [button]]> rows).
  split; [done|]. split.
  - destruct (Z.lt_ge_cases r 0) as [Hneg|Hpos].
    + replace (Z.max 0 r) with 0 in * by lia.
      by apply add_button_from_row_negative_append.
    + replace (Z.max 0 r) with r in * by lia.
      by apply add_button_from_row_append; [lia|].
  - split; [apply list_lookup_insert_eq; by eapply lookup_lt_Some|].
    split; [apply length_insert|].
    intros j Hj. by apply list_lookup_insert_ne.
Qed.

(** X3.  Without [from_row] and [insert_row] the call works on the last row
    of a grid that has one: [add_button(button)] appends to it, and
    [add_button(button, insert_column=c)] puts the button at column [c]
    clamped into [0, len(last row)], in front for a negative [c] and at the
    end for a [c] beyond the row; the rows before the last one stay as they
    are. *)
Theorem add_button_last_row button rows :
  rows <> [] ->
  exists row,
    last rows = Some row
    /\ add_button button None None None rows
       = (Ok tt, take (length rows - 1) rows ++ [row ++ [button]])
    /\ forall c,
         exists k : nat,
           Z.of_nat k = clamp 0 (PyList.len row) c
           /\ add_button button None None (Some c) rows
              = (Ok tt, take (length rows - 1) rows
                          ++ [take k row ++ button :: drop k row]).
Proof.
  intros Hne. destruct (last_is_Some rows) as [_ Hl].
  destruct (Hl Hne) as [row Hrow]. exists row. split; [done|].
  destruct (last_lookup_sub rows row Hrow) as [_ Hlook].
  pose proof (lookup_lt_Some _ _ _ Hlook) as Hlt.
  assert (forall row', <[(length rows - 1)%nat := row']> rows
                       = take (length rows - 1) rows ++ [row']) as Hins.
  { intros row'. rewrite insert_take_drop by done.
    by rewrite drop_ge by lia. }
  split.
  - by rewrite (add_button_last_append button rows row), Hins.
  - intros c. exists (Z.to_nat (interval_value 0 (PyList.len row) c)).
    pose proof (interval_value_range 0 (PyList.len row) c (len_nonneg row)).
    split.
    + rewrite <- interval_value_clamp by apply len_nonneg. lia.
    + by rewrite (add_button_last_insert button c rows row), Hins.
Qed.

Lemma concat_row_inserted rows (p : nat) row (w : nat) button :
  rows !! p = Some row ->
  concat rows
  = (concat (take p rows) ++ take w row) ++ drop w row ++ concat (drop (S p) rows)
  /\ concat (<[p := take w row ++ button :: drop w row]> rows)
     = (concat (take p rows) ++ take w row)
       ++ button :: drop w row ++ concat (drop (S p) rows).
Proof.
  intros Hrow. pose proof (lookup_lt_Some _ _ _ Hrow) as Hlt. split.
  - rewrite <- (take_drop_middle rows p row Hrow) at 1.
    rewrite concat_app, concat_cons, <- (take_drop w row) at 1.
    by rewrite <- !app_assoc.
  - rewrite insert_take_drop by done.
    rewrite concat_app, concat_cons. by rewrite <- !app_assoc.
Qed.

(** X4.  Whatever its arguments, a call of [add_button] that returns has put
    the button at one place of the buttons read row by row and has left the
    other buttons where they were, in their order; a call that does not
    return raises IndexError or AttributeError and leaves the grid as it
    was. *)
Theorem add_button_keeps_order button fr ir ic rows :
  add_button button fr ir ic rows = (Raise IndexError, rows)
  \/ add_button button fr ir ic rows = (Raise AttributeError, rows)
  \/ exists rows' before after,
       add_button button fr ir ic rows = (Ok tt, rows')
       /\ concat rows = before ++ after
       /\ concat rows' = before ++ button :: after.
Proof.
  destruct (add_button_shape button fr ir ic rows)
    as [(e & He & [->| ->])
       |[(_ & p & row & w & Hrow & Hw & He)|(_ & _ & k & Hk & He)]].
  - by left.
  - right. by left.
  - right. right.
    destruct (concat_row_inserted rows p row w button Hrow) as [H1 H2].
    eexists _, _, _. split; [exact He|]. split; [exact H1|exact H2].
  - right. right. eexists _, (concat (take k rows)), (concat (drop k rows)).
    split; [exact He|]. split.
    + by rewrite <- concat_app, take_drop.
    + by rewrite concat_app, concat_cons.
Qed.

(** X5.  A call of [add_button] that returns adds a row exactly when
    [insert_row] is given; otherwise the number of rows stays, one row is
    longer by one button, and every other row is what it was. *)
Theorem add_button_row_count button fr ir ic rows rows' :
  add_button button fr ir ic rows = (Ok tt, rows') ->
  match ir with
  | Some _ => length rows' = S (length rows)
  | None =>
      length rows' = length rows
      /\ exists (p : nat) row row',
           rows !! p = Some row /\ rows' !! p = Some row'
           /\ length row' = S (length row)
           /\ forall j : nat, j <> p -> rows' !! j = rows !! j
  end.
Proof.
  intros Hcall.
  destruct (add_button_shape button fr ir ic rows)
    as [(e & He & _)
       |[(-> & p & row & w & Hrow & Hw & He)|(_ & [i ->] & k & Hk & He)]];
    rewrite He in Hcall; [done| |].
  - injection Hcall as <-. split; [apply length_insert|].
    exists p, row, (take w row ++ button :: drop w row).
    split; [done|]. split; [apply list_lookup_insert_eq; by eapply lookup_lt_Some|].
    split; [apply length_inserted|]. intros j Hj. by apply list_lookup_insert_ne.
  - injection Hcall as <-. apply length_inserted.
Qed.

Lemma chained_cons (call : M (Button:=Button) unit) calls rows :
  chained (call :: calls) rows
  = match call rows with
    | (Ok _, rows') => chained calls rows'
    | (Raise e, rows') => (Raise e, rows')
    end.
Proof. done. Qed.

Lemma add_buttons_last_row bs : forall rows row,
  last rows = Some row ->
  chained (map (fun b => add_button b None None None) bs) rows
  = (Ok tt, take (length rows - 1) rows ++ [row ++ bs]).
Proof.
  induction bs as [|b bs IH]; intros rows row Hrow;
    destruct (last_lookup_sub rows row Hrow) as [Hne Hlook];
    pose proof (lookup_lt_Some _ _ _ Hlook) as Hlt.
  - cbn. f_equal. rewrite app_nil_r.
    rewrite <- (take_drop_middle rows (length rows - 1) row Hlook) at 1.
    by rewrite drop_ge by lia.
  - cbn [map]. rewrite chained_cons.
    rewrite (add_button_last_append b rows row Hrow).
    rewrite insert_take_drop, (drop_ge rows) by lia.
    rewrite (IH _ (row ++ [b])) by apply last_snoc.
    rewrite length_app, length_take. cbn [length].
    replace ((length rows - 1) `min` length rows + 1 - 1)%nat
      with (length rows - 1)%nat by lia.
    rewrite take_app_length' by (rewrite length_take; lia).
    by rewrite <- app_assoc.
Qed.

(** X6.  Calls [add_button(b)] made one after the other for the buttons of a
    list all return and extend the last row by these buttons in their order,
    leaving the rows before it alone; on the grid of the constructor without
    argument they build the grid of [from_row]. *)
Theorem add_buttons_build_row (bs : list Button) :
  (forall rows row,
      last rows = Some row ->
      chained (map (fun b => add_button b None None None) bs) rows
      = (Ok tt, take (length rows - 1) rows ++ [row ++ bs]))
  /\ chained (map (fun b => add_button b None None None) bs) (__init__ None)
     = (Ok tt, from_row bs).
Proof.
  split; [apply add_buttons_last_row|].
  by rewrite (add_buttons_last_row bs (__init__ None) []).
Qed.

Lemma add_buttons_rows_after bs : forall rows i,
  PyList.len rows + PyList.len bs <= i ->
  chained (map (fun b => add_button b None (Some i) None) bs) rows
  = (Ok tt, rows ++ from_column bs).
Proof.
  induction bs as [|b bs IH]; intros rows i Hi.
  - cbn. by rewrite app_nil_r.
  - cbn [map]. rewrite chained_cons, add_button_insert_row.
    unfold PyList.len in Hi. cbn [length] in Hi.
    rewrite interval_value_above by (unfold PyList.len; lia).
    unfold PyList.len at 1 2. rewrite Nat2Z.id, take_ge, drop_ge by done.
    rewrite IH by (unfold PyList.len; rewrite length_app; cbn [length]; lia).
    unfold from_column, __init__. cbn [map]. by rewrite <- app_assoc.
Qed.

Lemma add_buttons_rows_before bs : forall rows i,
  i <= 0 ->
  chained (map (fun b => add_button b None (Some i) None) bs) rows
  = (Ok tt, rev (from_column bs) ++ rows).
Proof.
  induction bs as [|b bs IH]; intros rows i Hi.
  - done.
  - cbn [map]. rewrite chained_cons, add_button_insert_row.
    rewrite interval_value_below by (apply len_nonneg || done).
    cbn [Z.to_nat take drop app]. rewrite IH by done.
    unfold from_column, __init__. cbn [map rev]. by rewrite <- app_assoc.
Qed.

(** X7.  Calls [add_button(b, insert_row=i)] made one after the other for the
    buttons of a list all return.  With an [i] that is at least the number
    of rows plus the number of buttons they put one row per button after the
    rows, in the order of the list, which is the grid of [from_column] when
    there was no row; with an [i] that is zero or negative they put these
    rows in front, in the reverse order. *)
Theorem add_buttons_build_column (bs : list Button) rows i :
  (PyList.len rows + PyList.len bs <= i ->
   chained (map (fun b => add_button b None (Some i) None) bs) rows
   = (Ok tt, rows ++ from_column bs))
  /\ (i <= 0 ->
      chained (map (fun b => add_button b None (Some i) None) bs) rows
      = (Ok tt, rev (from_column bs) ++ rows)).
Proof.
  split; [apply add_buttons_rows_after|apply add_buttons_rows_before].
Qed.

Lemma insert_pos_nonneg {A} (l : list A) i :
  0 <= i -> PyList.insert_pos l i = Z.to_nat (Z.min i (PyList.len l)).
Proof.
  intros Hi. unfold PyList.insert_pos. cbv zeta.
  pose proof (len_nonneg l).
  destruct (Z.ltb_spec i 0); [lia|].
  destruct (Z.ltb_spec i 0); [lia|].
  destruct (Z.ltb_spec (PyList.len l) i); f_equal; lia.
Qed.

(** X19.  [add_button(button, from_row=r, insert_column=c)] with a negative
    [r], as the code has it, on a grid with a row.  Below [-len(rows)] the
    call raises IndexError and the rows stay as they are.  From [-len(rows)]
    on the call returns: the button goes into row 0, and its column is [c]
    clamped into [0, n], where [n] is the length of the row that [r] counts
    from the end, and then cut to the length of row 0. *)
Theorem add_button_negative_from_row_column button r c rows :
  r < 0 -> rows <> [] ->
  (r < - PyList.len rows ->
   add_button button (Some r) None (Some c) rows = (Raise IndexError, rows))
  /\ (- PyList.len rows <= r ->
      exists row0 rowr (k : nat),
        rows !! 0%nat = Some row0
        /\ rows !! Z.to_nat (PyList.len rows + r) = Some rowr
        /\ Z.of_nat k = Z.min (clamp 0 (PyList.len rowr) c) (PyList.len row0)
        /\ add_button button (Some r) None (Some c) rows
           = (Ok tt, <[0%nat := take k row0 ++ button :: drop k row0]> rows)).
Proof.
  intros Hr Hne.
  assert (0 < PyList.len rows) as Hlen
    by (destruct rows; [done|unfold PyList.len; cbn [length]; lia]).
  assert (exists row0, rows !! 0%nat = Some row0) as [row0 Hrow0]
    by (destruct rows; [done|eauto]).
  assert (
    add_button button (Some r) None (Some c) rows
    = match PyList.getitem rows r with
      | Ok rowr =>
          (Ok tt, alter (PyList.insert (interval_value 0 (PyList.len rowr) c) button)
                        0%nat rows)
      | Raise e => (Raise e, rows)
      end) as ->.
  { run_add_button. destruct (Z.ltb_spec (PyList.len rows - 1) r); [lia|].
    rewrite interval_value_below by lia.
    rewrite subscript_in_range by lia. cbn.
    by destruct (PyList.getitem rows r). }
  unfold PyList.getitem, PyList.subscript.
  destruct (Z.leb_spec 0 r); [lia|]. cbn [andb].
  destruct (Z.ltb_spec r 0); [|lia]. rewrite andb_true_r.
  split; intros Hlow.
  - destruct (Z.leb_spec (- PyList.len rows) r); [lia|]. done.
  - destruct (Z.leb_spec (- PyList.len rows) r); [|lia]. cbn [rbind].
    destruct (lookup_lt_is_Some_2 rows (Z.to_nat (PyList.len rows + r)))
      as [rowr Hrowr]; [unfold PyList.len in *; lia|].
    rewrite Hrowr.
    pose proof (interval_value_range 0 (PyList.len rowr) c (len_nonneg rowr)) as Hc.
    exists row0, rowr,
      (Z.to_nat (Z.min (interval_value 0 (PyList.len rowr) c) (PyList.len row0))).
    split; [done|]. split; [done|]. split.
    + rewrite <- interval_value_clamp by apply len_nonneg.
      pose proof (len_nonneg row0). lia.
    + rewrite (alter_lookup_insert _ _ _ row0) by done.
      unfold PyList.insert. by rewrite insert_pos_nonneg by lia.
Qed.

End AddButtonModes.

Section AddButtonEq.
Context {Button Foreign : Type}.
Variable button_eq : Button -> Button -> bool.
Implicit Types (a b c rows : grid Button) (button : Button).

(** X8.  After a call of [add_button] that returns, the grid is not equal to
    the grid it was before the call, whatever the buttons' own equality
    says: a row was added, or one row has a button more. *)
Theorem add_button_result_differs button fr ir ic rows rows' :
  add_button button fr ir ic rows = (Ok tt, rows') ->
  __eq__ (Foreign:=Foreign) button_eq rows' (Markup rows) = Ok false.
Proof.
  intros Hcall.
  destruct (eq_decides_same_grid (Foreign:=Foreign) button_eq rows' rows)
    as [[_ [Hlen Hrows]]|[H _]]; [exfalso|done].
  destruct (add_button_shape button fr ir ic rows)
    as [(e & He & _)
       |[(_ & p & row & w & Hrow & Hw & He)|(_ & _ & k & Hk & He)]];
    rewrite He in Hcall; [done| |]; injection Hcall as <-.
  - pose proof (lookup_lt_Some _ _ _ Hrow) as Hlt.
    destruct (Hrows p (take w row ++ button :: drop w row) row) as [Hl _];
      [by apply list_lookup_insert_eq|done|].
    rewrite length_inserted in Hl. lia.
  - rewrite length_inserted in Hlen. lia.
Qed.

(** X9.  When every button is equal to itself, every grid is equal to
    itself. *)
Theorem eq_reflexive a :
  (forall x, button_eq x x = true) ->
  __eq__ (Foreign:=Foreign) button_eq a (Markup a) = Ok true.
Proof.
  intros Hrefl.
  destruct (eq_decides_same_grid (Foreign:=Foreign) button_eq a a)
    as [[H _]|[_ H]]; [done|]. destruct H. split; [done|].
  intros i ra rb Hra Hrb. assert (rb = ra) as -> by congruence.
  split; [done|]. intros j x y Hx Hy. assert (y = x) as -> by congruence.
  apply Hrefl.
Qed.

Lemma same_grid_sym a b :
  (forall x y, button_eq x y = button_eq y x) ->
  same_grid button_eq a b -> same_grid button_eq b a.
Proof.
  intros Hsym [Hlen Hrows]. split; [done|].
  intros i rb ra Hrb Hra. destruct (Hrows i ra rb Hra Hrb) as [Hl Hb].
  split; [done|]. intros j y x Hy Hx. rewrite Hsym. by apply (Hb j).
Qed.

(** X10.  When the buttons' equality does not depend on the side a button
    stands on, neither does the equality of grids: [a == b] and [b == a]
    give the same answer. *)
Theorem eq_symmetric a b :
  (forall x y, button_eq x y = button_eq y x) ->
  __eq__ (Foreign:=Foreign) button_eq a (Markup b)
  = __eq__ (Foreign:=Foreign) button_eq b (Markup a).
Proof.
  intros Hsym.
  destruct (eq_decides_same_grid (Foreign:=Foreign) button_eq a b)
    as [[-> Hab]|[-> Hab]],
    (eq_decides_same_grid (Foreign:=Foreign) button_eq b a)
    as [[-> Hba]|[-> Hba]]; try done.
  - destruct Hba. by apply same_grid_sym.
  - destruct Hab. by apply same_grid_sym.
Qed.

(** X11.  When the buttons' equality is transitive, so is the equality of
    grids. *)
Theorem eq_transitive a b c :
  (forall x y z, button_eq x y = true -> button_eq y z = true ->
                 button_eq x z = true) ->
  __eq__ (Foreign:=Foreign) button_eq a (Markup b) = Ok true ->
  __eq__ (Foreign:=Foreign) button_eq b (Markup c) = Ok true ->
  __eq__ (Foreign:=Foreign) button_eq a (Markup c) = Ok true.
Proof.
  intros Htrans Hab Hbc.
  destruct (eq_decides_same_grid (Foreign:=Foreign) button_eq a b)
    as [[_ [Hl1 H1]]|[H _]]; [|congruence].
  destruct (eq_decides_same_grid (Foreign:=Foreign) button_eq b c)
    as [[_ [Hl2 H2]]|[H _]]; [|congruence].
  destruct (eq_decides_same_grid (Foreign:=Foreign) button_eq a c)
    as [[H _]|[_ H]]; [done|]. destruct H. split; [congruence|].
  intros i ra rc Hra Hrc.
  destruct (lookup_lt_is_Some_2 b i) as [rb Hrb];
    [apply lookup_lt_Some in Hra; lia|].
  destruct (H1 i ra rb Hra Hrb) as [Hla Hba].
  destruct (H2 i rb rc Hrb Hrc) as [Hlb Hbb].
  split; [congruence|]. intros j x z Hx Hz.
  destruct (lookup_lt_is_Some_2 rb j) as [y Hy];
    [apply lookup_lt_Some in Hx; lia|].
  apply (Htrans x y z); [by apply (Hba j)|by apply (Hbb j)].
Qed.

End AddButtonEq.

(** ** to_dict, de_json and the constructors: further statements *)

Section SerializationModes.
Context {Button Bot Foreign : Type}.
Variable button_to_dict : Button -> JSONDict.
Variable button_de_json : JSON -> Bot -> option Button.
Variable button_eq : Button -> Button -> bool.
Variable base_to_dict : grid Button -> JSONDict.
Implicit Types (g rows : grid Button) (data : JSONDict) (bot : Bot).

Lemma dict_get_set_other k k' v data :
  k' <> k -> PyDict.get k' (PyDict.set k v data) = PyDict.get k' data.
Proof.
  intros Hne. induction data as [|[k0 v0] data IH]; cbn.
  - by rewrite decide_False.
  - destruct (decide (k = k0)) as [->|Hk]; cbn.
    + by rewrite !decide_False.
    + destruct (decide (k' = k0)); [done|apply IH].
Qed.

(** X12.  The dictionary of [to_dict] holds under ["inline_keyboard"] one
    list per row, in the order of the rows, each with the dictionaries of the
    buttons of that row in their order; every other key has the value it has
    in the dictionary of the base class; and the dictionary is not empty. *)
Theorem to_dict_entries g :
  PyDict.get "inline_keyboard" (to_dict button_to_dict base_to_dict g)
  = Some (JArr (map (fun row => JArr (map (fun x => JObj (button_to_dict x)) row)) g))
  /\ (forall k, k <> "inline_keyboard" ->
        PyDict.get k (to_dict button_to_dict base_to_dict g)
        = PyDict.get k (base_to_dict g))
  /\ truthy (Some (to_dict button_to_dict base_to_dict g)) = true.
Proof.
  unfold to_dict. split; [|split].
  - by rewrite dict_get_set, rows_to_json_map.
  - intros k Hk. by apply dict_get_set_other.
  - pose proof (dict_set_nonempty "inline_keyboard"
                  (JArr (rows_to_json button_to_dict g)) (base_to_dict g)) as H.
    by destruct (PyDict.set _ _ _).
Qed.

(** X13.  [de_json] returns [None] for an absent and for an empty mapping
    and for no other: on a mapping with an entry it returns a grid or
    raises. *)
Theorem de_json_none_iff (data : option JSONDict) bot :
  de_json button_de_json data bot = Ok None <-> truthy data = false.
Proof.
  unfold de_json, parse_data. destruct (truthy data) eqn:Ht; cbn [negb].
  - split; [|done]. destruct data as [d|]; [|done].
    destruct (PyDict.getitem d "inline_keyboard") as [v|]; cbn; [|done].
    destruct (iterate v) as [rows|]; cbn; [|done].
    by destruct (de_json_rows button_de_json bot rows []).
  - done.
Qed.

Lemma iterate_raises v e : iterate v = Raise e -> e = TypeError.
Proof. destruct v; cbn; congruence. Qed.

Lemma de_json_rows_not_iterable bot (rows : list JSON) : forall keyboard,
  (exists (i : nat) row, rows !! i = Some row /\ is_raise (iterate row) = true) ->
  de_json_rows button_de_json bot rows keyboard = Raise TypeError.
Proof.
  induction rows as [|row rows IH]; intros keyboard (i & bad & Hi & Hbad).
  - by rewrite lookup_nil in Hi.
  - cbn. destruct (iterate row) as [cols|e] eqn:E; cbn.
    + destruct i as [|i]; cbn in Hi.
      * injection Hi as <-. by rewrite E in Hbad.
      * apply IH. by exists i, bad.
    + by apply iterate_raises in E as ->.
Qed.

(** X14.  On a mapping that has the key, [de_json] raises TypeError and
    returns no grid when the value under ["inline_keyboard"] cannot be
    iterated over ([null], a boolean, a number), and also when that value is
    a list of which one entry cannot be iterated over, wherever in the list
    the entry stands. *)
Theorem de_json_not_iterable data bot v :
  data <> [] ->
  PyDict.get "inline_keyboard" data = Some v ->
  (is_raise (iterate v) = true ->
   de_json button_de_json (Some data) bot = Raise TypeError)
  /\ (forall (rows : list JSON) (i : nat) row,
        v = JArr rows -> rows !! i = Some row -> is_raise (iterate row) = true ->
        de_json button_de_json (Some data) bot = Raise TypeError).
Proof.
  intros Hne Hget. unfold de_json, parse_data, PyDict.getitem.
  destruct data as [|kv data]; [done|]. cbn [truthy negb]. rewrite Hget.
  cbn [rbind]. split.
  - intros Hv. destruct (iterate v) as [rows|e] eqn:E; [done|].
    by apply iterate_raises in E as ->.
  - intros rows i row -> Hi Hrow. cbn [iterate rbind].
    rewrite de_json_rows_not_iterable; [done|]. by exists i, row.
Qed.

(** X15.  Of a mapping with an entry, [de_json] reads the value under
    ["inline_keyboard"] and nothing else: two such mappings with the same
    value there, or both without the key, give the same result. *)
Theorem de_json_reads_one_key data1 data2 bot :
  data1 <> [] -> data2 <> [] ->
  PyDict.get "inline_keyboard" data1 = PyDict.get "inline_keyboard" data2 ->
  de_json button_de_json (Some data1) bot = de_json button_de_json (Some data2) bot.
Proof.
  intros H1 H2 Hget. unfold de_json, parse_data, PyDict.getitem.
  destruct data1 as [|kv1 data1]; [done|]. destruct data2 as [|kv2 data2]; [done|].
  cbn [truthy negb]. by rewrite Hget.
Qed.

(** X16.  [de_json] applied to [to_dict] of a grid always returns a grid, with
    as many rows as the grid had; row by row it holds, in order, the buttons
    that the buttons' own deserializer gives back, so a row can only get
    shorter, and a row that loses all its buttons stays as an empty row. *)
Theorem de_json_to_dict_rows g bot :
  exists g',
    de_json button_de_json (Some (to_dict button_to_dict base_to_dict g)) bot
    = Ok (Some g')
    /\ length g' = length g
    /\ forall (i : nat) row, g !! i = Some row ->
         exists row',
           g' !! i = Some row'
           /\ row' = omap (fun x => button_de_json (JObj (button_to_dict x)) bot) row
           /\ (length row' <= length row)%nat.
Proof.
  eexists. split; [apply de_json_to_dict|]. split; [apply length_map|].
  intros i row Hrow. eexists. split; [|split; [done|]].
  - by rewrite list_lookup_fmap, Hrow.
  - clear Hrow. induction row as [|x row IH]; cbn; [done|].
    destruct (button_de_json _ _); cbn; lia.
Qed.

(** X17.  [from_button(b)], [from_row([b])] and [from_column([b])] are the
    same grid.  [from_column] makes one row per button, each with that one
    button, in the order of the list; read row by row, the grids of
    [from_column] and of [from_row] hold the buttons of the list in its
    order. *)
Theorem from_constructors_shape (button : Button) (bs : list Button) :
  from_button button = from_row [button]
  /\ from_button button = from_column [button]
  /\ length (from_column bs) = length bs
  /\ (forall i : nat, from_column bs !! i = (fun b => [b]) <$> bs !! i)
  /\ concat (from_column bs) = bs
  /\ concat (from_row bs) = bs.
Proof.
  unfold from_button, from_row, from_column, __init__.
  split; [done|]. split; [done|]. split; [apply length_map|].
  split; [intros i; apply list_lookup_fmap|]. split.
  - induction bs as [|b bs IH]; [done|]. cbn. by rewrite IH.
  - cbn. apply app_nil_r.
Qed.

(** X18.  The grid of [from_row] and the grid of [from_column] of the same
    list of buttons are not equal unless the list has exactly one button. *)
Theorem from_row_differs_from_column (bs : list Button) :
  length bs <> 1%nat ->
  __eq__ (Foreign:=Foreign) button_eq (from_row bs) (Markup (from_column bs))
  = Ok false.
Proof.
  intros Hlen. unfold __eq__, from_row, from_column, __init__.
  rewrite length_map. cbn [length].
  by destruct (Nat.eqb_spec 1 (length bs)) as [Heq|Hne]; [lia|].
Qed.

End SerializationModes.

(** ** The tests, and the statements at particular grids *)

Section Examples.
Import Fixture.

(** [test_add_button], with [insert_column] for the column argument. *)
Example test_add_button :
  add_button (button "1") None None None (__init__ None)
  = (Ok tt, [[button "1"]])
  /\ chain [ add_button (button "7") None None None;
             add_button (button "8") (Some 0) None (Some 1);
             add_button (button "9") (Some 1) None (Some (-2));
             add_button (button "10") (Some 2) None (Some (-100));
             add_button (button "11") (Some 2) None (Some 100) ]
           (__init__ (Some [ [button "2"; button "3"];
                             [button "4"; button "5"];
                             [button "6"] ]))
     = (Ok tt, [ [button "2"; button "8"; button "3"];
                 [button "9"; button "4"; button "5"];
                 [button "10"; button "6"; button "7"; button "11"] ]).
Proof. split; reflexivity. Qed.

(** [test_add_from_markup] *)
Example test_add_from_markup :
  chain [ add_from_markup [[button "4"; button "5"]] None;
          add_from_markup [[button "6"; button "7"]; [button "8"]] (Some 0%nat) ]
        (__init__ (Some [ [button "1"; button "2"]; [button "3"] ]))
  = (Ok tt, [ [button "6"; button "7"]; [button "8"];
              [button "1"; button "2"]; [button "3"];
              [button "4"; button "5"] ]).
Proof. reflexivity. Qed.

(** [test_from_button], [test_from_row], [test_from_column] *)
Example test_from :
  from_button (button "1") = [[button "1"]]
  /\ from_row [button "1"; button "1"] = [[button "1"; button "1"]]
  /\ from_column [button "1"; button "1"] = [[button "1"]; [button "1"]].
Proof. repeat split. Qed.

(** [test_de_json]: the second entry of the first row has no text here and
    is left out. *)
Example test_de_json :
  de_json button_de_json
    (Some [("inline_keyboard",
            JArr [ JArr [ JObj [("text", JStr "start"); ("callback_data", JStr "go")];
                          JObj [("callback_data", JStr "abcd")] ];
                   JArr [ JObj [("text", JStr "Cancel"); ("callback_data", JStr "Cancel")] ] ])])
    tt
  = Ok (Some [ [ {| text := "start"; callback_data := "go" |} ];
               [ {| text := "Cancel"; callback_data := "Cancel" |} ] ]).
Proof. reflexivity. Qed.

(** C1 fails on a grid without rows: [InlineKeyboardMarkup([])] followed by
    [add_button(button)] raises IndexError at [self.inline_keyboard[-1]],
    although [from_row] and [insert_row] are both unset.  It also fails on a
    grid of two rows at [add_button(button, from_row=-3, insert_column=0)],
    which raises IndexError at [self.inline_keyboard[from_row]] although
    [from_row] is not greater than [len(rows) - 1]. *)
Lemma add_button_no_rows_counterexample :
  ~ fails_only_as_specified (button "1") None None None (__init__ (Some []))
  /\ ~ fails_only_as_specified (button "5") (Some (-3)) None (Some 0) rows_3_1.
Proof.
  unfold fails_only_as_specified. vm_compute.
  split; intros [H _]; specialize (H eq_refl); discriminate H.
Qed.

Lemma add_button_refusals_witness :
  (forall r, Some 0 = Some r -> @None Z = None -> is_Some (Some (-2)) -> 0 <= r)
  /\ let out := add_button (button "5") (Some 0) None (Some (-2)) rows_3_1 in
     (out.1 = Raise IndexError
      <-> range_violation rows_3_1 (Some 0) None = true
          \/ (rows_3_1 = [] /\ @None Z = None))
     /\ (out.1 = Raise AttributeError <-> both_given (Some 0) None = true)
     /\ (is_raise out.1 = true -> out.2 = rows_3_1)
     /\ (is_raise out.1 = false ->
         out.1 = Ok tt /\ buttons out.2 = S (buttons rows_3_1))
     /\ (range_violation rows_3_1 (Some 0) None = false ->
         both_given (Some 0) None = false ->
         ~ (rows_3_1 = [] /\ @None Z = None) ->
         out = (Ok tt, add_button_as_specified (button "5") (Some 0) None
                         (Some (-2)) rows_3_1)).
Proof.
  assert (forall r, Some 0 = Some r -> @None Z = None -> is_Some (Some (-2)) -> 0 <= r)
    as H by (intros r [= <-] _ _; lia).
  split; [exact H|].
  exact (add_button_refusals (button "5") (Some 0) None (Some (-2)) rows_3_1 H).
Defined.

(** The grid of the specification at some calls: a negative column goes to
    the front, a column beyond the row to its end, a negative [from_row] to
    row 0, an [insert_row] beyond the rows after the last one. *)
Example add_button_as_specified_values :
  add_button_as_specified (button "5") (Some 0) None (Some (-2)) rows_3_1
  = [ [button "5"; button "1"; button "2"; button "3"]; [button "4"] ]
  /\ add_button_as_specified (button "5") (Some 1) None (Some 100) rows_3_1
     = [ [button "1"; button "2"; button "3"]; [button "4"; button "5"] ]
  /\ add_button_as_specified (button "5") (Some (-9)) None None rows_3_1
     = [ [button "1"; button "2"; button "3"; button "5"]; [button "4"] ]
  /\ add_button_as_specified (button "5") None (Some 100) None rows_3_1
     = [ [button "1"; button "2"; button "3"]; [button "4"]; [button "5"] ]
  /\ add_button_as_specified (button "5") None None (Some 1) rows_3_1
     = [ [button "1"; button "2"; button "3"]; [button "4"; button "5"] ].
Proof. repeat split; reflexivity. Qed.

(** C2 fails when the rows are given as an empty list:
    [InlineKeyboardMarkup([])] has no row, it is not [[[]]]. *)
Lemma init_empty_list_counterexample :
  __init__ (Some []) = @nil (list InlineKeyboardButton)
  /\ __init__ (Some []) <> [@nil InlineKeyboardButton].
Proof. split; [reflexivity|discriminate]. Qed.

(** C3 at a negative [from_row].  With rows of 3 and 1 buttons,
    [add_button(button, from_row=-1, insert_column=3)] targets row 0 but
    takes the column bound from [self.inline_keyboard[-1]], the last row: the
    button lands at column 1, where the statement has it appended at column
    3.  With [from_row=-3] the same subscript raises IndexError, where the
    statement has the button put in front of row 0. *)
Theorem add_button_negative_from_row_insert :
  add_button (button "5") (Some (-1)) None (Some 3) rows_3_1
  = (Ok tt, [ [button "1"; button "5"; button "2"; button "3"]; [button "4"] ])
  /\ insert_in_row_as_specified (button "5") (-1) 3 rows_3_1
     = [ [button "1"; button "2"; button "3"; button "5"]; [button "4"] ]
  /\ add_button (button "5") (Some (-3)) None (Some 0) rows_3_1
     = (Raise IndexError, rows_3_1)
  /\ insert_in_row_as_specified (button "5") (-3) 0 rows_3_1
     = [ [button "5"; button "1"; button "2"; button "3"]; [button "4"] ].
Proof. repeat split; reflexivity. Qed.

Lemma hash_respects_eq_witness :
  (forall x y, button_eq_text x y = true -> button_hash_text x = button_hash_text y)
  /\ __eq__ (Foreign:=unit) button_eq_text
       [ [ {| text := "Yes"; callback_data := "1" |};
           {| text := "No"; callback_data := "2" |} ] ]
       (Markup [ [ {| text := "Yes"; callback_data := "y" |};
                   {| text := "No"; callback_data := "n" |} ] ]) = Ok true
  /\ __hash__ button_hash_text tuple_hash
       [ [ {| text := "Yes"; callback_data := "1" |};
           {| text := "No"; callback_data := "2" |} ] ]
     = __hash__ button_hash_text tuple_hash
         [ [ {| text := "Yes"; callback_data := "y" |};
             {| text := "No"; callback_data := "n" |} ] ].
Proof.
  assert (forall x y, button_eq_text x y = true
                      -> button_hash_text x = button_hash_text y) as H1.
  { intros x y Hxy. apply bool_decide_eq_true_1 in Hxy.
    unfold button_hash_text. by rewrite Hxy. }
  split; [exact H1|]. split; [reflexivity|].
  exact (proj1 (hash_respects_eq (Foreign:=unit) button_eq_text button_hash_text
                  tuple_hash
                  [ [ {| text := "Yes"; callback_data := "1" |};
                      {| text := "No"; callback_data := "2" |} ] ]
                  [ [ {| text := "Yes"; callback_data := "y" |};
                      {| text := "No"; callback_data := "n" |} ] ])
               H1 eq_refl).
Defined.

(** With a tuple hash that tells any two tuples apart, the row grid and the
    column grid of two buttons do not have the same hash. *)
Example hash_tells_shapes_apart :
  (forall l1 l2, tuple_code l1 = tuple_code l2 -> l1 = l2)
  /\ __hash__ button_hash tuple_code (from_row [button "1"; button "2"])
     <> __hash__ button_hash tuple_code (from_column [button "1"; button "2"]).
Proof.
  assert (forall l1 l2, tuple_code l1 = tuple_code l2 -> l1 = l2) as Hinj.
  { intros l1 l2 H. injection H as H. by apply (inj countable.encode). }
  split; [exact Hinj|]. intros H.
  rewrite !hash_of_nested_hashes in H. apply Hinj in H.
  apply (map_inj_list tuple_code Hinj) in H. discriminate H.
Qed.

Lemma de_json_to_dict_round_trip_witness :
  exists g',
    de_json button_de_json (Some (to_dict button_to_dict base_to_dict rows_3_1)) tt
    = Ok (Some g')
    /\ __eq__ (Foreign:=unit) button_eq g' (Markup rows_3_1) = Ok true.
Proof.
  apply (de_json_to_dict_round_trip button_to_dict button_de_json button_eq
           base_to_dict rows_3_1 tt).
  intros i j row [t d] _ _. exists {| text := t; callback_data := d |}.
  split; [reflexivity|]. by apply bool_decide_eq_true_2.
Defined.

Lemma de_json_missing_key_witness :
  de_json button_de_json (Some [("keyboard", JArr [])]) tt
  = Raise (KeyError "inline_keyboard").
Proof.
  apply (de_json_missing_key button_de_json [("keyboard", JArr [])] tt).
  - discriminate.
  - reflexivity.
Defined.

Lemma add_from_markup_contiguous_witness :
  exists rows',
    add_from_markup [[button "6"; button "7"]; [button "8"]] (Some 1%nat) rows_3_1
    = (Ok tt, rows')
    /\ rows' = take 1 rows_3_1 ++ [[button "6"; button "7"]; [button "8"]]
               ++ drop 1 rows_3_1
    /\ (forall j : nat, (j < 1)%nat -> rows' !! j = rows_3_1 !! j)
    /\ (forall j : nat,
          (j < length [[button "6"; button "7"]; [button "8"]])%nat ->
          rows' !! (1 + j)%nat = [[button "6"; button "7"]; [button "8"]] !! j)
    /\ (forall j : nat, (1 <= j)%nat ->
          rows' !! (length [[button "6"; button "7"]; [button "8"]] + j)%nat
          = rows_3_1 !! j).
Proof.
  apply (add_from_markup_contiguous rows_3_1
           [[button "6"; button "7"]; [button "8"]] 1).
  cbn. lia.
Defined.

End Examples.

Section ExamplesModes.
Import Fixture.

Lemma add_button_from_row_appends_witness :
  exists row rows',
    rows_3_1 !! Z.to_nat (Z.max 0 (-7)) = Some row
    /\ add_button (button "5") (Some (-7)) None None rows_3_1 = (Ok tt, rows')
    /\ rows' !! Z.to_nat (Z.max 0 (-7)) = Some (row ++ [button "5"])
    /\ length rows' = length rows_3_1
    /\ (forall j : nat, j <> Z.to_nat (Z.max 0 (-7)) -> rows' !! j = rows_3_1 !! j).
Proof.
  apply (add_button_from_row_appends (button "5") (-7) rows_3_1).
  - discriminate.
  - vm_compute. discriminate.
Defined.

Lemma add_button_last_row_witness :
  exists row,
    last rows_3_1 = Some row
    /\ add_button (button "5") None None None rows_3_1
       = (Ok tt, take (length rows_3_1 - 1) rows_3_1 ++ [row ++ [button "5"]])
    /\ forall c,
         exists k : nat,
           Z.of_nat k = clamp 0 (PyList.len row) c
           /\ add_button (button "5") None None (Some c) rows_3_1
              = (Ok tt, take (length rows_3_1 - 1) rows_3_1
                          ++ [take k row ++ button "5" :: drop k row]).
Proof.
  apply (add_button_last_row (button "5") rows_3_1). discriminate.
Defined.

Lemma add_button_row_count_witness :
  length [ [button "5"]; [button "1"; button "2"; button "3"]; [button "4"] ]
  = S (length rows_3_1).
Proof.
  exact (add_button_row_count (button "5") None (Some (-4)) None rows_3_1
           [ [button "5"]; [button "1"; button "2"; button "3"]; [button "4"] ]
           eq_refl).
Defined.

Lemma add_button_result_differs_witness :
  __eq__ (Foreign:=unit) button_eq
    [ [button "1"; button "2"; button "3"]; [button "4"; button "4"] ]
    (Markup rows_3_1)
  = Ok false.
Proof.
  exact (add_button_result_differs (Foreign:=unit) button_eq (button "4")
           None None None rows_3_1
           [ [button "1"; button "2"; button "3"]; [button "4"; button "4"] ]
           eq_refl).
Defined.

Lemma eq_reflexive_witness :
  __eq__ (Foreign:=unit) button_eq rows_3_1 (Markup rows_3_1) = Ok true.
Proof.
  apply (eq_reflexive (Foreign:=unit) button_eq rows_3_1).
  intros x. by apply bool_decide_eq_true_2.
Defined.

Lemma eq_symmetric_witness :
  __eq__ (Foreign:=unit) button_eq rows_3_1 (Markup (from_button (button "1")))
  = __eq__ (Foreign:=unit) button_eq (from_button (button "1")) (Markup rows_3_1).
Proof.
  apply (eq_symmetric (Foreign:=unit) button_eq rows_3_1 (from_button (button "1"))).
  intros x y. apply bool_decide_ext. split; congruence.
Defined.

Lemma eq_transitive_witness :
  __eq__ (Foreign:=unit) button_eq
    (from_column [button "1"; button "2"])
    (Markup [ [button "1"]; [button "2"] ])
  = Ok true.
Proof.
  apply (eq_transitive (Foreign:=unit) button_eq
           (from_column [button "1"; button "2"])
           (from_row [button "1"] ++ from_row [button "2"])
           [ [button "1"]; [button "2"] ]).
  - intros x y z Hxy Hyz. apply bool_decide_eq_true_1 in Hxy, Hyz.
    apply bool_decide_eq_true_2. congruence.
  - reflexivity.
  - reflexivity.
Defined.

Lemma de_json_not_iterable_witness :
  (is_raise (iterate (JArr [JArr []; JNum 3])) = true ->
   de_json button_de_json (Some [("inline_keyboard", JArr [JArr []; JNum 3])]) tt
   = Raise TypeError)
  /\ (forall (rows : list JSON) (i : nat) row,
        JArr [JArr []; JNum 3] = JArr rows -> rows !! i = Some row ->
        is_raise (iterate row) = true ->
        de_json button_de_json (Some [("inline_keyboard", JArr [JArr []; JNum 3])]) tt
        = Raise TypeError).
Proof.
  apply (de_json_not_iterable button_de_json
           [("inline_keyboard", JArr [JArr []; JNum 3])] tt (JArr [JArr []; JNum 3])).
  - discriminate.
  - reflexivity.
Defined.

Lemma de_json_reads_one_key_witness :
  de_json button_de_json
    (Some [("inline_keyboard", JArr [JArr [JObj (button_to_dict (button "1"))]])]) tt
  = de_json button_de_json
      (Some [("resize_keyboard", JBool true);
             ("inline_keyboard", JArr [JArr [JObj (button_to_dict (button "1"))]])]) tt.
Proof.
  apply (de_json_reads_one_key button_de_json
           [("inline_keyboard", JArr [JArr [JObj (button_to_dict (button "1"))]])]
           [("resize_keyboard", JBool true);
            ("inline_keyboard", JArr [JArr [JObj (button_to_dict (button "1"))]])] tt).
  - discriminate.
  - discriminate.
  - reflexivity.
Defined.

Lemma from_row_differs_from_column_witness :
  __eq__ (Foreign:=unit) button_eq
    (from_row [button "1"; button "2"])
    (Markup (from_column [button "1"; button "2"]))
  = Ok false.
Proof.
  apply (from_row_differs_from_column (Foreign:=unit) button_eq
           [button "1"; button "2"]).
  cbn. lia.
Defined.

Lemma add_button_negative_from_row_column_witness :
  (-2 < - PyList.len rows_3_1 ->
   add_button (button "5") (Some (-2)) None (Some 2) rows_3_1
   = (Raise IndexError, rows_3_1))
  /\ (- PyList.len rows_3_1 <= -2 ->
      exists row0 rowr (k : nat),
        rows_3_1 !! 0%nat = Some row0
        /\ rows_3_1 !! Z.to_nat (PyList.len rows_3_1 + -2) = Some rowr
        /\ Z.of_nat k = Z.min (clamp 0 (PyList.len rowr) 2) (PyList.len row0)
        /\ add_button (button "5") (Some (-2)) None (Some 2) rows_3_1
           = (Ok tt, <[0%nat := take k row0 ++ button "5" :: drop k row0]> rows_3_1)).
Proof.
  apply (add_button_negative_from_row_column (button "5") (-2) 2 rows_3_1).
  - lia.
  - discriminate.
Defined.

End ExamplesModes.

End InlineKeyboardMarkup.
